(** * Property definitions: descriptors, combinators and generated conversions

    A verification development for the property-definition file
    (Properties.td).  The file has two layers, and so has this development:

    - [Td]: the TableGen layer.  A property is a record of code templates
      (strings with [$_storage], [$_attr], ... placeholders); a combinator is
      a function from records to records built with string concatenation
      ([#]) and textual substitution ([!subst]).  Everything here happens at
      schema-compile time.
    - [Gen]: the behaviour of the C++ code the templates expand to.  A
      template with a hole for the wrapped property's code becomes a function
      that takes the wrapped property's behaviour as an argument.

    [Statement] holds the few notions that only the statements need; the
    properties of each layer follow the definitions.  [Text], [Conversions],
    [Binary] and [Syntax] extend the two layers to the rest of the
    containers' code: template text, storage assignment, binary form, and
    the optional's parsers and printers. *)

From Stdlib Require Import String Ascii List ZArith Lia Bool.
Import ListNotations.
Local Open Scope string_scope.

(* ================================================================== *)
(** ** The TableGen layer *)
(* ================================================================== *)

Module Td.

(** The double-quote character, as a one-character string. *)
Definition dq : string := String (ascii_of_nat 34) EmptyString.

(** [!empty(s)] on strings. *)
Definition empty (s : string) : bool :=
  match s with
  | EmptyString => true
  | String _ _ => false
  end.

(** [!subst(target, repl, s)]: every occurrence of [target] in [s], found
    from left to right, is replaced by [repl]; the search resumes after the
    inserted text, so a replacement is never scanned again.  [skip] counts
    the characters of a matched occurrence that are still to be dropped. *)
Fixpoint subst_from (skip : nat) (target repl s : string) : string :=
  match s with
  | EmptyString => EmptyString
  | String c rest =>
      match skip with
      | S k => subst_from k target repl rest
      | O =>
          if prefix target s
          then repl ++ subst_from (String.length target - 1) target repl rest
          else String c (subst_from 0 target repl rest)
      end
  end.

(** The property file only substitutes the non-empty placeholder names; an
    empty target leaves the string as it is. *)
Definition subst (target repl s : string) : string :=
  if empty target then s else subst_from 0 target repl s.

(** Modelled from the spec: the predicate classes of mlir/IR/Constraints.td,
    which the property file includes but which is not among the sources.
    Only the constructors the property file uses are present.  [TruePred] is
    the named record that [!eq] and [!ne] compare against. *)
#[warnings="-register-all"]
Inductive Pred : Type :=
| TruePred
| CPred (condition : string)
| And (children : list Pred)
| Or (children : list Pred)
| Concat (pre : string) (child : Pred) (suf : string)
| SubstLeaves (pattern replacement : string) (child : Pred).

(** [!eq(p, TruePred)]; [!ne(p, TruePred)] is its negation. *)
Definition eq_TruePred (p : Pred) : bool :=
  match p with
  | TruePred => true
  | _ => false
  end.

(** A property record: the fields of [PropConstraint] ([predicate],
    [summary], [interfaceType]) followed by the fields of [class Property].
    [baseProperty = ?] (unset) is [None]. *)
#[warnings="-register-all"]
Inductive Property : Type := mkProperty {
  predicate : Pred;
  summary : string;
  interfaceType : string;
  description : string;
  storageType : string;
  convertFromStorage : string;
  assignToStorage : string;
  convertToAttribute : string;
  convertFromAttribute : string;
  hashProperty : string;
  parser : string;
  optionalParser : string;
  printer : string;
  writeToMlirBytecode : string;
  readFromMlirBytecode : string;
  baseProperty : option Property;
  defaultValue : string;
  storageTypeValueOverride : string
}.

(** [class Property<storageTypeParam, desc, interfaceTypeParam>
      : PropConstraint<TruePred, desc, interfaceTypeParam>]. *)
Definition Property_class (storageTypeParam desc interfaceTypeParam : string)
  : Property :=
  let storageType := storageTypeParam in
  {| predicate := TruePred;
     summary := desc;
     interfaceType := interfaceTypeParam;
     description := "";
     storageType := storageType;
     convertFromStorage := "$_storage";
     assignToStorage := "$_storage = $_value";
     convertToAttribute := "
    return convertToAttribute($_ctxt, $_storage);
  ";
     convertFromAttribute := "
    return convertFromAttribute($_storage, $_attr, $_diag);
  ";
     hashProperty := "";
     parser := "
    auto value = ::mlir::FieldParser<" ++ storageType ++ ">::parse($_parser);
    if (::mlir::failed(value))
      return ::mlir::failure();
    $_storage = std::move(" ++ "*value);
  ";
     optionalParser := "";
     printer := "$_printer << $_storage";
     writeToMlirBytecode := "
    writeToMlirBytecode($_writer, $_storage);
  ";
     readFromMlirBytecode := "
    if (::mlir::failed(readFromMlirBytecode($_reader, $_storage)))
      return ::mlir::failure();
  ";
     baseProperty := None;
     defaultValue := "";
     storageTypeValueOverride := "" |}.

(** [Property<>]: all template arguments at their defaults. *)
Definition Property_default : Property := Property_class "" "" "".

(** [defvar readMlirBytecodeUsingConvertFromAttribute]. *)
Definition readMlirBytecodeUsingConvertFromAttribute : string := "
  ::mlir::Attribute attr;
  if (::mlir::failed($_reader.readAttribute(attr)))
    return ::mlir::failure();
  if (::mlir::failed(convertFromAttribute($_storage, attr, nullptr)))
    return ::mlir::failure();
".

(** [defvar writeMlirBytecodeWithConvertToAttribute]. *)
Definition writeMlirBytecodeWithConvertToAttribute : string := "
  $_writer.writeAttribute(convertToAttribute($_ctxt, $_storage))
".

(** *** Primitive property kinds

    The records and classes that only add [Deprecated<...>] to one of these
    ([IntProperty], [I32Property], [StringProperty], ...) have the same
    fields and are not repeated. *)

(** [class IntProp<storageTypeParam, desc> : Property<storageTypeParam, desc>]. *)
Definition IntProp (storageTypeParam desc : string) : Property :=
  let base := Property_class storageTypeParam desc storageTypeParam in
  {| predicate := predicate base;
     summary := if empty desc then storageTypeParam else desc;
     interfaceType := interfaceType base;
     description := description base;
     storageType := storageType base;
     convertFromStorage := convertFromStorage base;
     assignToStorage := assignToStorage base;
     convertToAttribute := convertToAttribute base;
     convertFromAttribute := convertFromAttribute base;
     hashProperty := hashProperty base;
     parser := parser base;
     optionalParser := "
    return $_parser.parseOptionalInteger($_storage);
  ";
     printer := "$_printer.printInteger($_storage)";
     writeToMlirBytecode := "
    $_writer.writeVarInt($_storage);
  ";
     readFromMlirBytecode := "
    uint64_t val;
    if (failed($_reader.readVarInt(val)))
      return ::mlir::failure();
    $_storage = val;
  ";
     baseProperty := baseProperty base;
     defaultValue := defaultValue base;
     storageTypeValueOverride := storageTypeValueOverride base |}.

Definition I32Prop : Property := IntProp "int32_t" "".
Definition I64Prop : Property := IntProp "int64_t" "".

(** [class _cls_StringProp
      : Property<"std::string", "string", "::llvm::StringRef">]. *)
Definition _cls_StringProp : Property :=
  let base := Property_class "std::string" "string" "::llvm::StringRef" in
  {| predicate := predicate base;
     summary := summary base;
     interfaceType := interfaceType base;
     description := description base;
     storageType := storageType base;
     convertFromStorage := "::llvm::StringRef{$_storage}";
     assignToStorage := "$_storage = $_value.str()";
     convertToAttribute := convertToAttribute base;
     convertFromAttribute := convertFromAttribute base;
     hashProperty := hashProperty base;
     parser := parser base;
     optionalParser := "
    if (::mlir::failed($_parser.parseOptionalString(&$_storage)))
      return std::nullopt;
  ";
     printer := "$_printer.printString($_storage)";
     writeToMlirBytecode := "
    $_writer.writeOwnedString($_storage);
  ";
     readFromMlirBytecode := "
    StringRef val;
    if (::mlir::failed($_reader.readString(val)))
      return ::mlir::failure();
    $_storage = val.str();
  ";
     baseProperty := baseProperty base;
     defaultValue := defaultValue base;
     storageTypeValueOverride := storageTypeValueOverride base |}.

Definition StringProp : Property := _cls_StringProp.

(** [class _cls_BoolProp : IntProp<"bool", "boolean">]. *)
Definition _cls_BoolProp : Property :=
  let base := IntProp "bool" "boolean" in
  {| predicate := predicate base;
     summary := summary base;
     interfaceType := interfaceType base;
     description := description base;
     storageType := storageType base;
     convertFromStorage := convertFromStorage base;
     assignToStorage := assignToStorage base;
     convertToAttribute := convertToAttribute base;
     convertFromAttribute := convertFromAttribute base;
     hashProperty := hashProperty base;
     parser := parser base;
     optionalParser := optionalParser base;
     printer := " $_printer << ($_storage ? " ++ dq ++ "true" ++ dq ++ " : "
                ++ dq ++ "false" ++ dq ++ ") ";
     writeToMlirBytecode := "
    $_writer.writeOwnedBool($_storage);
  ";
     readFromMlirBytecode := "
    return $_reader.readBool($_storage);
  ";
     baseProperty := baseProperty base;
     defaultValue := defaultValue base;
     storageTypeValueOverride := storageTypeValueOverride base |}.

Definition BoolProp : Property := _cls_BoolProp.

(** [class _cls_UnitProp : Property<"bool", "unit property">]. *)
Definition _cls_UnitProp : Property :=
  let base := Property_class "bool" "unit property" "bool" in
  {| predicate := predicate base;
     summary := "unit property";
     interfaceType := interfaceType base;
     description := "
    A property whose presence or abscence is used as a flag.

    This is stored as a boolean that defaults to false, and is named UnitProperty
    by analogy with UnitAttr, which has the more comprehensive rationale and
    explains the less typical syntax.

    Note that this attribute does have a syntax for the false case to allow for its
    use in contexts where default values shouldn't be elided.
  ";
     storageType := storageType base;
     convertFromStorage := convertFromStorage base;
     assignToStorage := assignToStorage base;
     convertToAttribute := "
    if ($_storage)
      return ::mlir::UnitAttr::get($_ctxt);
    else
      return ::mlir::BoolAttr::get($_ctxt, false);
  ";
     convertFromAttribute := "
    if (::llvm::isa<::mlir::UnitAttr>($_attr)) {
      $_storage = true;
      return ::mlir::success();
    }
    if (auto boolAttr = ::llvm::dyn_cast<::mlir::BoolAttr>($_attr)) {
      $_storage = boolAttr.getValue();
      return ::mlir::success();
    }
    return ::mlir::failure();
  ";
     hashProperty := hashProperty base;
     parser := "
    ::llvm::StringRef keyword;
    if (::mlir::failed($_parser.parseOptionalKeyword(&keyword,
        {" ++ dq ++ "unit" ++ dq ++ ", " ++ dq ++ "unit_absent" ++ dq ++ "})))
      return $_parser.emitError($_parser.getCurrentLocation(),
        " ++ dq ++ "expected 'unit' or 'unit_absent'" ++ dq ++ ");
    $_storage = (keyword == " ++ dq ++ "unit" ++ dq ++ ");
  ";
     optionalParser := "
    ::llvm::StringRef keyword;
    if (::mlir::failed($_parser.parseOptionalKeyword(&keyword,
        {" ++ dq ++ "unit" ++ dq ++ ", " ++ dq ++ "unit_absent" ++ dq ++ "})))
      return std::nullopt;
    $_storage = (keyword == " ++ dq ++ "unit" ++ dq ++ ");
  ";
     printer := "
    $_printer << ($_storage ? " ++ dq ++ "unit" ++ dq ++ " : " ++ dq ++ "unit_absent" ++ dq ++ ")
  ";
     writeToMlirBytecode := "
    $_writer.writeOwnedBool($_storage);
  ";
     readFromMlirBytecode := "
    if (::mlir::failed($_reader.readBool($_storage)))
      return ::mlir::failure();
  ";
     baseProperty := baseProperty base;
     defaultValue := "false";
     storageTypeValueOverride := storageTypeValueOverride base |}.

Definition UnitProp : Property := _cls_UnitProp.

(** *** Property field overwrites *)

(** [class DefaultValuedProp<Property p, string default = "",
                             string storageDefault = "">
      : Property<p.storageType, p.summary, p.interfaceType>]. *)
Definition DefaultValuedProp (p : Property) (default storageDefault : string)
  : Property :=
  {| predicate := predicate p;
     summary := summary p;
     interfaceType := interfaceType p;
     description := description p;
     storageType := storageType p;
     convertFromStorage := convertFromStorage p;
     assignToStorage := assignToStorage p;
     convertToAttribute := convertToAttribute p;
     convertFromAttribute := convertFromAttribute p;
     hashProperty := hashProperty p;
     parser := parser p;
     optionalParser := optionalParser p;
     printer := printer p;
     writeToMlirBytecode := writeToMlirBytecode p;
     readFromMlirBytecode := readFromMlirBytecode p;
     baseProperty := Some p;
     defaultValue := default;
     storageTypeValueOverride := storageDefault |}.

(** [class ConfinedProp<Property p, Pred pred, string newSummary = "">
      : Property<p.storageType,
                 !if(!empty(newSummary), p.summary, newSummary),
                 p.interfaceType>]. *)
Definition ConfinedProp (p : Property) (pred : Pred) (newSummary : string)
  : Property :=
  let base :=
    Property_class (storageType p)
      (if empty newSummary then summary p else newSummary) (interfaceType p) in
  {| predicate :=
       if negb (eq_TruePred (predicate p))
       then And [predicate p; pred]
       else pred;
     summary := summary base;
     interfaceType := interfaceType p;
     description := description p;
     storageType := storageType p;
     convertFromStorage := convertFromStorage p;
     assignToStorage := assignToStorage p;
     convertToAttribute := convertToAttribute p;
     convertFromAttribute := convertFromAttribute p;
     hashProperty := hashProperty p;
     parser := parser p;
     optionalParser := optionalParser p;
     printer := printer p;
     writeToMlirBytecode := writeToMlirBytecode p;
     readFromMlirBytecode := readFromMlirBytecode p;
     baseProperty := Some p;
     defaultValue := defaultValue p;
     storageTypeValueOverride := storageTypeValueOverride p |}.

(** [class ConstantProp<Property prop, string val>
      : ConfinedProp<prop, CPred<"$_self == " # val>,
                     "constant '" # prop.summary # "': " # val>];
    the extra field [value = val] is returned next to the record. *)
Definition ConstantProp (prop : Property) (val : string) : Property * string :=
  (ConfinedProp prop (CPred ("$_self == " ++ val))
     ("constant '" ++ summary prop ++ "': " ++ val),
   val).

(** *** Primitive property combinators *)

(** The initializer [_makePropStorage] gives a fresh storage variable:
    [!cond(!not(!empty(prop.storageTypeValueOverride)) : " = " # override,
           !not(!empty(prop.defaultValue)) : " = " # default,
           true : "")]. *)
Definition storageInitializer (prop : Property) : string :=
  if negb (empty (storageTypeValueOverride prop))
  then " = " ++ storageTypeValueOverride prop
  else if negb (empty (defaultValue prop))
  then " = " ++ defaultValue prop
  else "".

(** [class _makePropStorage<Property prop, string name>], field [ret]. *)
Definition _makePropStorage (prop : Property) (name : string) : string :=
  storageType prop ++ " " ++ name ++ storageInitializer prop ++ ";".

(** [class _makeStorageWrapperPred<Property wrappedProp>], field [ret]. *)
Definition _makeStorageWrapperPred (wrappedProp : Property) : Pred :=
  Concat
    ("[](" ++ "const " ++ storageType wrappedProp
       ++ "& baseStore) -> bool { return []("
       ++ interfaceType wrappedProp ++ " baseIface) -> bool { return (")
    (SubstLeaves "$_self" "baseIface" (predicate wrappedProp))
    ("); }(" ++ subst "$_storage" "baseStore" (convertFromStorage wrappedProp)
       ++ "); }").

(** [class ArrayProp<Property elem = Property<>, string newSummary = "">
      : Property<"::llvm::SmallVector<" # elem.storageType # ">",
                 !if(!empty(newSummary), "array of " # elem.summary, newSummary),
                 "::llvm::ArrayRef<" # elem.storageType # ">">]. *)
Definition ArrayProp (elem : Property) (newSummary : string) : Property :=
  let base :=
    Property_class ("::llvm::SmallVector<" ++ storageType elem ++ ">")
      (if empty newSummary then "array of " ++ summary elem else newSummary)
      ("::llvm::ArrayRef<" ++ storageType elem ++ ">") in
  let theParserBegin :=
    "
    auto& storage = $_storage;
    auto parseElemFn = [&]() -> ::mlir::ParseResult {
      "
    ++ _makePropStorage elem "elemVal"
    ++ "
      auto elemParse = [&]("
    ++ storageType elem
    ++ "& propStorage) -> ::mlir::ParseResult {
        "
    ++ subst "$_storage" "propStorage" (parser elem)
    ++ "
        return ::mlir::success();
       }(elemVal);
      if (::mlir::failed(elemParse))
        return ::mlir::failure();
      storage.push_back(std::move(elemVal));
      return ::mlir::success();
    };
    " in
  {| predicate :=
       if eq_TruePred (predicate elem)
       then TruePred
       else Concat "::llvm::all_of($_self, " (_makeStorageWrapperPred elem) ")";
     summary := summary base;
     interfaceType := interfaceType base;
     description := description base;
     storageType := storageType base;
     convertFromStorage :=
       "::llvm::ArrayRef<" ++ storageType elem ++ ">{$_storage}";
     assignToStorage := "$_storage.assign($_value.begin(), $_value.end())";
     convertToAttribute :=
       "
    SmallVector<Attribute> elems;
    for (const auto& elemVal : $_storage) {
      auto elemAttr = [&](const "
       ++ storageType elem
       ++ "& propStorage) -> ::mlir::Attribute {
        "
       ++ subst "$_storage" "propStorage" (convertToAttribute elem)
       ++ "
      }(elemVal);
      elems.push_back(elemAttr);
    }
    return ::mlir::ArrayAttr::get($_ctxt, elems);
  ";
     convertFromAttribute :=
       "
    auto arrayAttr = ::llvm::dyn_cast_if_present<::mlir::ArrayAttr>($_attr);
    if (!arrayAttr)
      return $_diag() << " ++ dq ++ "expected array attribute" ++ dq ++ ";
    for (::mlir::Attribute elemAttr : arrayAttr) {
      "
       ++ _makePropStorage elem "elemVal"
       ++ "
      auto elemRes = [&](Attribute propAttr, "
       ++ storageType elem
       ++ "& propStorage) -> ::mlir::LogicalResult {
        "
       ++ subst "$_attr" "propAttr"
            (subst "$_storage" "propStorage" (convertFromAttribute elem))
       ++ "
      }(elemAttr, elemVal);
      if (::mlir::failed(elemRes))
        return ::mlir::failure();
      $_storage.push_back(std::move(elemVal));
    }
    return ::mlir::success();
  ";
     hashProperty :=
       if empty (hashProperty elem)
       then "hash_value(::llvm::ArrayRef<"
            ++ storageType elem
            ++ ">{$_storage})"
       else "[&]() -> ::llvm::hash_code {
        auto getElemHash = [](const auto& propStorage) -> ::llvm::hash_code {
          return "
            ++ subst "$_storage" "propStorage" (hashProperty elem)
            ++ ";
        };
        auto mapped = ::llvm::map_range($_storage, getElemHash);
        return ::llvm::hash_combine_range(mapped);
      }()
    ";
     parser :=
       theParserBegin ++ "
    return $_parser.parseCommaSeparatedList(
      ::mlir::OpAsmParser::Delimiter::Square, parseElemFn);
  ";
     optionalParser :=
       theParserBegin ++ "
    auto oldLoc = $_parser.getCurrentLocation();
    auto parseResult = $_parser.parseCommaSeparatedList(
      ::mlir::OpAsmParser::Delimiter::OptionalSquare, parseElemFn);
    if (::mlir::failed(parseResult))
      return ::mlir::failure();
    auto newLoc = $_parser.getCurrentLocation();
    if (oldLoc == newLoc)
      return std::nullopt;
    return ::mlir::success();
  ";
     printer :=
       " [&](){
    $_printer << " ++ dq ++ "[" ++ dq ++ ";
    auto elemPrinter = [&](const "
       ++ storageType elem
       ++ "& elemVal) {
      "
       ++ subst "$_storage" "elemVal" (printer elem)
       ++ ";
    };
    ::llvm::interleaveComma($_storage, $_printer, elemPrinter);
    $_printer << " ++ dq ++ "]" ++ dq ++ ";
  }()";
     writeToMlirBytecode :=
       "
    $_writer.writeVarInt($_storage.size());
    for (const auto& elemVal : $_storage) {
      [&]() {
        "
       ++ subst "$_storage" "elemVal" (writeToMlirBytecode elem)
       ++ ";
      }();
    }
  ";
     readFromMlirBytecode :=
       "
    uint64_t length;
    if (::mlir::failed($_reader.readVarInt(length)))
      return ::mlir::failure();
    $_storage.reserve(length);
    for (uint64_t i = 0; i < length; ++i) {
      "
       ++ _makePropStorage elem "elemVal"
       ++ "
      auto elemRead = [&]("
       ++ storageType elem
       ++ "& propStorage) -> ::mlir::LogicalResult {
        "
       ++ subst "$_storage" "propStorage" (readFromMlirBytecode elem)
       ++ ";
        return ::mlir::success();
      }(elemVal);
      if (::mlir::failed(elemRead))
        return ::mlir::failure();
      $_storage.push_back(std::move(elemVal));
    }
  ";
     baseProperty := baseProperty base;
     defaultValue := defaultValue base;
     storageTypeValueOverride := storageTypeValueOverride base |}.

(** [class IntArrayProp<Property elem, string newSummary = "">
      : ArrayProp<elem, newSummary>]. *)
Definition IntArrayProp (elem : Property) (newSummary : string) : Property :=
  let base := ArrayProp elem newSummary in
  {| predicate := predicate base;
     summary := summary base;
     interfaceType := interfaceType base;
     description := description base;
     storageType := storageType base;
     convertFromStorage := convertFromStorage base;
     assignToStorage := assignToStorage base;
     convertToAttribute := "
    return convertToAttribute($_ctxt, $_storage);
  ";
     convertFromAttribute := "
    return convertFromAttribute($_storage, $_attr, $_diag);
  ";
     hashProperty := hashProperty base;
     parser := parser base;
     optionalParser := optionalParser base;
     printer := printer base;
     writeToMlirBytecode := writeToMlirBytecode base;
     readFromMlirBytecode := readFromMlirBytecode base;
     baseProperty := baseProperty base;
     defaultValue := defaultValue base;
     storageTypeValueOverride := storageTypeValueOverride base |}.

(** *** The optional combinator

    [class OptionalProp<Property p, bit canDelegateParsing = 1>]; its
    [defvar]s come first, each as a function of the template arguments it
    mentions. *)

(** [defvar hasTrivialStorage]. *)
Definition hasTrivialStorage (p : Property) : bool :=
  (convertFromStorage p =? "$_storage")
  && (assignToStorage p =? "$_storage = $_value")
  && (storageType p =? interfaceType p).

(** [defvar delegatesParsing]. *)
Definition delegatesParsing (p : Property) (canDelegateParsing : bool) : bool :=
  empty (defaultValue p) && negb (empty (optionalParser p)) && canDelegateParsing.

(** [defvar delegatedParserBegin]. *)
Definition delegatedParserBegin (p : Property) : string :=
  "
    if (::mlir::succeeded($_parser.parseOptionalKeyword(" ++ dq ++ "none" ++ dq ++ "))) {
      $_storage = std::nullopt;
      return ::mlir::success();
    }
    "
  ++ _makePropStorage p "presentVal"
  ++ "
    auto delegParseResult = [&]("
  ++ storageType p
  ++ "& propStorage) -> ::mlir::OptionalParseResult {
    "
  ++ subst "$_storage" "propStorage" (optionalParser p)
  ++ "
        return ::mlir::success();
    }(presentVal);
    if (!delegParseResult.has_value()) {
  ".

(** [defvar delegatedParserEnd]. *)
Definition delegatedParserEnd : string :=
  "
    }
    if (delegParseResult.has_value() && ::mlir::failed(" ++ "*delegParseResult))
      return ::mlir::failure();
    $_storage = std::move(presentVal);
    return ::mlir::success();
  ".

(** [defvar delegatedParser]: called for the mandatory parser, where
    "nothing here" from the underlying parser is a failure. *)
Definition delegatedParser (p : Property) : string :=
  delegatedParserBegin p
  ++ "
    return ::mlir::failure();
  "
  ++ delegatedParserEnd.

(** [defvar delegatedOptionalParser]. *)
Definition delegatedOptionalParser (p : Property) : string :=
  delegatedParserBegin p
  ++ "
      return std::nullopt;
  "
  ++ delegatedParserEnd.

(** [defvar generalParserBegin]. *)
Definition generalParserBegin : string :=
  "
    ::llvm::StringRef keyword;
    if (::mlir::failed($_parser.parseOptionalKeyword(&keyword, {" ++ dq ++ "none" ++ dq ++ ", " ++ dq ++ "some" ++ dq ++ "}))) {
  ".

(** [defvar generalParserEnd]. *)
Definition generalParserEnd (p : Property) : string :=
  "
    }
    if (keyword == " ++ dq ++ "none" ++ dq ++ ") {
      $_storage = std::nullopt;
      return ::mlir::success();
    }
    if (::mlir::failed($_parser.parseLess()))
      return ::mlir::failure();
    "
  ++ _makePropStorage p "presentVal"
  ++ "
    auto presentParse = [&]("
  ++ storageType p
  ++ "& propStorage) -> ::mlir::ParseResult {
      "
  ++ subst "$_storage" "propStorage" (parser p)
  ++ "
      return ::mlir::success();
    }(presentVal);
    if (presentParse || $_parser.parseGreater())
      return ::mlir::failure();
    $_storage = std::move(presentVal);
  ".

(** [defvar generalParser]. *)
Definition generalParser (p : Property) : string :=
  generalParserBegin
  ++ "
    return $_parser.emitError($_parser.getCurrentLocation(), " ++ dq ++ "expected 'none' or 'some<prop>'" ++ dq ++ ");
  "
  ++ generalParserEnd p.

(** [defvar generalOptionalParser]. *)
Definition generalOptionalParser (p : Property) : string :=
  generalParserBegin
  ++ "
    return std::nullopt;
  "
  ++ generalParserEnd p.

(** [defvar delegatedPrinter]. *)
Definition delegatedPrinter (p : Property) : string :=
  "
    [&]() {
      if (!$_storage.has_value()) {
        $_printer << " ++ dq ++ "none" ++ dq ++ ";
        return;
      }
      "
  ++ subst "$_storage" ("(" ++ "*($_storage))") (printer p)
  ++ ";
    }()".

(** [defvar generalPrinter]. *)
Definition generalPrinter (p : Property) : string :=
  "
      [&]() {
        if (!$_storage.has_value()) {
          $_printer << " ++ dq ++ "none" ++ dq ++ ";
          return;
        }
        $_printer << " ++ dq ++ "some<" ++ dq ++ ";
        "
  ++ subst "$_storage" ("(" ++ "*($_storage))") (printer p)
  ++ ";
        $_printer << " ++ dq ++ ">" ++ dq ++ ";
      }()".

(** The record [OptionalProp<p, canDelegateParsing>] defines, before any
    [let] of a record that derives from it. *)
Definition OptionalProp (p : Property) (canDelegateParsing : bool) : Property :=
  let base :=
    Property_class ("std::optional<" ++ storageType p ++ ">")
      ("optional " ++ summary p)
      ("std::optional<" ++ interfaceType p ++ ">") in
  let delegatesParsing := delegatesParsing p canDelegateParsing in
  {| predicate :=
       if negb (eq_TruePred (predicate p))
       then Or [CPred "!$_self.has_value()";
                SubstLeaves "$_self" ("(" ++ "*($_self))") (predicate p)]
       else TruePred;
     summary := summary base;
     interfaceType := interfaceType base;
     description := description base;
     storageType := storageType base;
     convertFromStorage :=
       if hasTrivialStorage p
       then convertFromStorage p
       else "($_storage.has_value() ? std::optional<"
            ++ interfaceType p
            ++ ">{"
            ++ subst "$_storage" ("(" ++ "*($_storage))") (convertFromStorage p)
            ++ "} : std::nullopt)";
     assignToStorage :=
       if hasTrivialStorage p
       then assignToStorage p
       else "[&]() {
      if (!$_value.has_value()) {
        $_storage = std::nullopt;
        return;
      }
      "
            ++ _makePropStorage p "presentVal"
            ++ "
      [&]("
            ++ storageType p
            ++ "& propStorage) {
        "
            ++ subst "$_storage" "propStorage"
                 (subst "$_value" ("(" ++ "*($_value))") (assignToStorage p))
            ++ ";
      }(presentVal);
      $_storage = std::move(presentVal);
    }()";
     convertToAttribute :=
       "
    if (!$_storage.has_value()) {
      return ::mlir::ArrayAttr::get($_ctxt, {});
    }
    auto attr = [&]() -> ::mlir::Attribute {
      "
       ++ subst "$_storage" ("(" ++ "*($_storage))") (convertToAttribute p)
       ++ "
    }();
    return ::mlir::ArrayAttr::get($_ctxt, {attr});
  ";
     convertFromAttribute :=
       "
    auto arrayAttr = ::llvm::dyn_cast<::mlir::ArrayAttr>($_attr);
    if (!arrayAttr)
      return $_diag() << " ++ dq ++ "expected optional properties to materialize as arrays" ++ dq ++ ";
    if (arrayAttr.size() > 1)
      return $_diag() << " ++ dq ++ "expected optional properties to become 0- or 1-element arrays" ++ dq ++ ";
    if (arrayAttr.empty()) {
      $_storage = std::nullopt;
      return ::mlir::success();
    }
    ::mlir::Attribute presentAttr = arrayAttr[0];
    "
       ++ _makePropStorage p "presentVal"
       ++ "
    auto presentRes = [&](Attribute propAttr, "
       ++ storageType p
       ++ "& propStorage) -> ::mlir::LogicalResult {
      "
       ++ subst "$_storage" "propStorage"
            (subst "$_attr" "propAttr" (convertFromAttribute p))
       ++ "
    }(presentAttr, presentVal);
    if (::mlir::failed(presentRes))
      return ::mlir::failure();
    $_storage = std::move(presentVal);
    return ::mlir::success();
  ";
     hashProperty :=
       if empty (hashProperty p)
       then hashProperty p
       else " hash_value($_storage.has_value() ? std::optional<::llvm::hash_code>{"
            ++ subst "$_storage" ("(" ++ "*($_storage))") (hashProperty p)
            ++ "} : std::nullopt) ";
     parser := if delegatesParsing then delegatedParser p else generalParser p;
     optionalParser :=
       if delegatesParsing
       then delegatedOptionalParser p
       else generalOptionalParser p;
     printer := if delegatesParsing then delegatedPrinter p else generalPrinter p;
     writeToMlirBytecode :=
       "
    $_writer.writeOwnedBool($_storage.has_value());
    if (!$_storage.has_value())
      return;
  "
       ++ subst "$_storage" ("(" ++ "*($_storage))") (writeToMlirBytecode p);
     readFromMlirBytecode :=
       "
    bool isPresent = false;
    if (::mlir::failed($_reader.readBool(isPresent)))
      return ::mlir::failure();
    if (!isPresent) {
      $_storage = std::nullopt;
      return ::mlir::success();
    }
    "
       ++ _makePropStorage p "presentVal"
       ++ "
    auto presentResult = [&]("
       ++ storageType p
       ++ "& propStorage) -> ::mlir::LogicalResult {
      "
       ++ subst "$_storage" "propStorage" (readFromMlirBytecode p)
       ++ ";
      return ::mlir::success();
    }(presentVal);
    if (::mlir::failed(presentResult))
      return ::mlir::failure();
    $_storage = std::move(presentVal);
  ";
     baseProperty := baseProperty base;
     defaultValue := "std::nullopt";
     storageTypeValueOverride := storageTypeValueOverride base |}.

(** The message of the [assert] that closes [class OptionalProp]. *)
Definition OptionalProp_assert_message : string :=
  "For delegated parsing to be used, the default value must be nullopt. "
  ++ "To use a non-trivial default, set the canDelegateParsing argument to 0".

(** The condition of that [assert]:
    [!or(!not(delegatesParsing), !eq(defaultValue, "std::nullopt"))].
    TableGen checks a class's assertions on each record that derives from the
    class, once the record's fields have their final values, so [defaultValue]
    is the field of the finished record [r]. *)
Definition OptionalProp_assert (p : Property) (canDelegateParsing : bool)
    (r : Property) : bool :=
  negb (delegatesParsing p canDelegateParsing)
  || (defaultValue r =? "std::nullopt").

(** [let defaultValue = v] in the body of a record or class. *)
Definition let_defaultValue (v : string) (r : Property) : Property :=
  {| predicate := predicate r;
     summary := summary r;
     interfaceType := interfaceType r;
     description := description r;
     storageType := storageType r;
     convertFromStorage := convertFromStorage r;
     assignToStorage := assignToStorage r;
     convertToAttribute := convertToAttribute r;
     convertFromAttribute := convertFromAttribute r;
     hashProperty := hashProperty r;
     parser := parser r;
     optionalParser := optionalParser r;
     printer := printer r;
     writeToMlirBytecode := writeToMlirBytecode r;
     readFromMlirBytecode := readFromMlirBytecode r;
     baseProperty := baseProperty r;
     defaultValue := v;
     storageTypeValueOverride := storageTypeValueOverride r |}.

(** A record that derives from [OptionalProp<p, canDelegateParsing>]:
    [def X : OptionalProp<p, canDelegateParsing>;] when [newDefault] is
    [None], and the same with the body [{ let defaultValue = v; }] when it is
    [Some v].  The result is the finished record, or the assertion's message
    when the assertion fails and no record is produced. *)
Definition def_OptionalProp (p : Property) (canDelegateParsing : bool)
    (newDefault : option string) : string + Property :=
  let r :=
    match newDefault with
    | None => OptionalProp p canDelegateParsing
    | Some v => let_defaultValue v (OptionalProp p canDelegateParsing)
    end in
  if OptionalProp_assert p canDelegateParsing r
  then inr r
  else inl OptionalProp_assert_message.

(** [t] occurs in [s]. *)
Definition contains (s t : string) : Prop :=
  exists before after : string, s = before ++ t ++ after.

End Td.

(* ================================================================== *)
(** ** The generated code *)
(* ================================================================== *)

Module Gen.

(** *** What the generated code works on *)

(** Modelled from the spec: the host's attributes, which the templates only
    inspect with [isa] and [dyn_cast], by kind: the marker (unit) attribute,
    the boolean attribute (whatever [dyn_cast<BoolAttr>] accepts), the
    ordered attribute list, and two kinds that are none of these.  The handle
    is not null. *)
#[warnings="-register-all"]
Inductive Attribute : Type :=
| UnitAttr
| BoolAttr (value : bool)
| IntegerAttr (value : Z)
| StringAttr (value : string)
| ArrayAttr (elements : list Attribute).

(** Modelled from the spec: [::mlir::LogicalResult], the success or failure
    result of a conversion. *)
Inductive LogicalResult : Type := success | failure.

(** [::mlir::failed]. *)
Definition failed (r : LogicalResult) : bool :=
  match r with
  | success => false
  | failure => true
  end.

(** What running a [convertFromAttribute] body leaves behind: the result it
    returns, the content of [$_storage] (a reference, so writes before a
    failure stay), and the messages sent to [$_diag()]. *)
Record Outcome (S : Type) : Type := mkOutcome {
  result : LogicalResult;
  stored : S;
  emitted : list string
}.
Arguments mkOutcome {S}.
Arguments result {S}.
Arguments stored {S}.
Arguments emitted {S}.

(** A predicate as code: [TruePred] is kept apart, as the combinators test
    for it; any other predicate is a boolean expression over [$_self]. *)
Inductive PredCode (I : Type) : Type :=
| TruePred
| Cond (expr : I -> bool).
Arguments TruePred {I}.
Arguments Cond {I}.

Definition holds {I : Type} (p : PredCode I) (self : I) : bool :=
  match p with
  | TruePred => true
  | Cond expr => expr self
  end.

(** The code of a property with storage type [S] and interface type [I]:
    what its templates compute once the placeholders are bound.
    [freshStorage] is the value of the variable that [_makePropStorage]
    declares for the property. *)
Record PropertyCode (S I : Type) : Type := mkPropertyCode {
  freshStorage : S;
  convertFromStorage : S -> I;
  convertToAttribute : S -> Attribute;
  convertFromAttribute : Attribute -> S -> Outcome S;
  predicate : PredCode I
}.
Arguments mkPropertyCode {S I}.
Arguments freshStorage {S I}.
Arguments convertFromStorage {S I}.
Arguments convertToAttribute {S I}.
Arguments convertFromAttribute {S I}.
Arguments predicate {S I}.

(** *** The unit property *)

(** [_cls_UnitProp.convertToAttribute]. *)
Definition UnitProp_convertToAttribute (storage : bool) : Attribute :=
  if storage then UnitAttr else BoolAttr false.

(** [_cls_UnitProp.convertFromAttribute]. *)
Definition UnitProp_convertFromAttribute (attr : Attribute) (storage : bool)
  : Outcome bool :=
  match attr with
  | UnitAttr => mkOutcome success true []
  | BoolAttr value => mkOutcome success value []
  | _ => mkOutcome failure storage []
  end.

(** [_cls_UnitProp]: stored as [bool], default value [false], predicate
    [TruePred], storage and interface coincide. *)
Definition UnitProp : PropertyCode bool bool :=
  {| freshStorage := false;
     convertFromStorage := fun storage => storage;
     convertToAttribute := UnitProp_convertToAttribute;
     convertFromAttribute := UnitProp_convertFromAttribute;
     predicate := TruePred |}.

(** *** The array combinator *)

(** [::llvm::all_of(range, pred)]. *)
Definition all_of {A : Type} (range : list A) (pred : A -> bool) : bool :=
  forallb pred range.

Section ArrayProp.
Context {S I : Type} (elem : PropertyCode S I).

(** The [for] loop of [ArrayProp.convertFromAttribute] over the elements
    still to visit; [diags] are the messages emitted so far. *)
Fixpoint ArrayProp_convertElements (elems : list Attribute)
    (storage : list S) (diags : list string) : Outcome (list S) :=
  match elems with
  | [] => mkOutcome success storage diags
  | elemAttr :: rest =>
      let elemVal := freshStorage elem in
      let elemRes := convertFromAttribute elem elemAttr elemVal in
      if failed (result elemRes)
      then mkOutcome failure storage (diags ++ emitted elemRes)
      else ArrayProp_convertElements rest
             (storage ++ [stored elemRes]) (diags ++ emitted elemRes)
  end.

(** [ArrayProp.convertFromAttribute]. *)
Definition ArrayProp_convertFromAttribute (attr : Attribute)
    (storage : list S) : Outcome (list S) :=
  match attr with
  | ArrayAttr arrayAttr => ArrayProp_convertElements arrayAttr storage []
  | _ => mkOutcome failure storage ["expected array attribute"]
  end.

(** [ArrayProp.convertToAttribute]. *)
Definition ArrayProp_convertToAttribute (storage : list S) : Attribute :=
  ArrayAttr (map (fun elemVal => convertToAttribute elem elemVal) storage).

(** [_makeStorageWrapperPred<elem>.ret]: a lambda over an element's
    storage that applies a lambda over its interface value. *)
Definition _makeStorageWrapperPred (baseStore : S) : bool :=
  (fun baseIface => holds (predicate elem) baseIface)
    (convertFromStorage elem baseStore).

(** [ArrayProp.predicate]. *)
Definition ArrayProp_predicate : PredCode (list S) :=
  match predicate elem with
  | TruePred => TruePred
  | Cond _ => Cond (fun self => all_of self _makeStorageWrapperPred)
  end.

(** [ArrayProp<elem>]: stored as a [SmallVector] of element storages and
    seen through an [ArrayRef] of the same elements; no default value, so a
    fresh one is empty. *)
Definition ArrayProp : PropertyCode (list S) (list S) :=
  {| freshStorage := [];
     convertFromStorage := fun storage => storage;
     convertToAttribute := ArrayProp_convertToAttribute;
     convertFromAttribute := ArrayProp_convertFromAttribute;
     predicate := ArrayProp_predicate |}.
End ArrayProp.

(** *** The optional combinator *)

Section OptionalProp.
Context {S I : Type} (p : PropertyCode S I).

(** [OptionalProp.convertFromAttribute]. *)
Definition OptionalProp_convertFromAttribute (attr : Attribute)
    (storage : option S) : Outcome (option S) :=
  match attr with
  | ArrayAttr arrayAttr =>
      if (1 <? List.length arrayAttr)%nat
      then mkOutcome failure storage
             ["expected optional properties to become 0- or 1-element arrays"]
      else
        match arrayAttr with
        | [] => mkOutcome success None []
        | presentAttr :: _ =>
            let presentVal := freshStorage p in
            let presentRes := convertFromAttribute p presentAttr presentVal in
            if failed (result presentRes)
            then mkOutcome failure storage (emitted presentRes)
            else mkOutcome success (Some (stored presentRes))
                   (emitted presentRes)
        end
  | _ => mkOutcome failure storage
           ["expected optional properties to materialize as arrays"]
  end.

(** [OptionalProp.convertToAttribute]. *)
Definition OptionalProp_convertToAttribute (storage : option S) : Attribute :=
  match storage with
  | None => ArrayAttr []
  | Some present => ArrayAttr [convertToAttribute p present]
  end.

(** [OptionalProp.convertFromStorage].  With trivial storage the template
    is [p]'s own ["$_storage"], the identity on the optional, which is what
    the general template computes when [p]'s conversion is the identity. *)
Definition OptionalProp_convertFromStorage (storage : option S) : option I :=
  match storage with
  | Some present => Some (convertFromStorage p present)
  | None => None
  end.

(** [OptionalProp.predicate]:
    [Or<[CPred<"!$_self.has_value()">, SubstLeaves<...>]>] unless [p]'s
    predicate is [TruePred]. *)
Definition OptionalProp_predicate : PredCode (option I) :=
  match predicate p with
  | TruePred => TruePred
  | Cond expr =>
      Cond (fun self =>
              match self with
              | None => true
              | Some present => expr present
              end)
  end.

(** [OptionalProp<p>]; its default value is [std::nullopt]. *)
Definition OptionalProp : PropertyCode (option S) (option I) :=
  {| freshStorage := None;
     convertFromStorage := OptionalProp_convertFromStorage;
     convertToAttribute := OptionalProp_convertToAttribute;
     convertFromAttribute := OptionalProp_convertFromAttribute;
     predicate := OptionalProp_predicate |}.
End OptionalProp.

(** *** Binary form of the primitive kinds *)

(** Modelled from the spec: the host's binary reader and writer primitives
    for variable-length integers, owned strings and booleans
    ([DialectBytecodeWriter], [DialectBytecodeReader]).  A format is any
    choice of encoders and decoders over a stream of [unit]s; a decoder
    returns the value read and the rest of the stream, or nothing when the
    read fails. *)
Record BytecodeFormat : Type := mkBytecodeFormat {
  unit : Type;
  encodeVarInt : Z -> list unit;
  decodeVarInt : list unit -> option (Z * list unit);
  encodeOwnedString : string -> list unit;
  decodeString : list unit -> option (string * list unit);
  encodeOwnedBool : bool -> list unit;
  decodeBool : list unit -> option (bool * list unit)
}.

(** What the host promises: a decoder reads back what the matching encoder
    wrote, whatever follows it in the stream.  [writeVarInt] takes a
    [uint64_t]. *)
Record BytecodeFormat_correct (fmt : BytecodeFormat) : Prop := {
  varint_roundtrip :
    forall (v : Z) (rest : list (unit fmt)),
      (0 <= v < 2 ^ 64)%Z ->
      decodeVarInt fmt (encodeVarInt fmt v ++ rest) = Some (v, rest);
  string_roundtrip :
    forall (s : string) (rest : list (unit fmt)),
      decodeString fmt (encodeOwnedString fmt s ++ rest) = Some (s, rest);
  bool_roundtrip :
    forall (b : bool) (rest : list (unit fmt)),
      decodeBool fmt (encodeOwnedBool fmt b ++ rest) = Some (b, rest)
}.

(** A C++ integer type: signedness and width. *)
Record IntType : Type := mkIntType { signed : bool; bits : Z }.

Definition int32_t : IntType := mkIntType true 32.
Definition int64_t : IntType := mkIntType true 64.
Definition uint64_t : IntType := mkIntType false 64.

(** The values of an integer type. *)
Definition representable (T : IntType) (v : Z) : Prop :=
  if signed T
  then (- 2 ^ (bits T - 1) <= v < 2 ^ (bits T - 1))%Z
  else (0 <= v < 2 ^ bits T)%Z.

(** Implicit conversion of an integer to type [T]: the value modulo
    [2 ^ bits], taken in the range of [T]. *)
Definition convert (T : IntType) (v : Z) : Z :=
  let m := (v mod 2 ^ bits T)%Z in
  if signed T && (2 ^ (bits T - 1) <=? m)%Z
  then (m - 2 ^ bits T)%Z
  else m.

Section Bytecode.
Variable fmt : BytecodeFormat.

(** The writer holds what has been written; the reader what is left. *)
Definition Writer : Type := list (unit fmt).
Definition Reader : Type := list (unit fmt).

(** What running a [readFromMlirBytecode] body leaves behind: its result,
    the content of [$_storage], and the reader. *)
Definition ReadOutcome (S : Type) : Type := (LogicalResult * S * Reader)%type.

Definition writeVarInt (value : Z) (writer : Writer) : Writer :=
  (writer ++ encodeVarInt fmt value)%list.
Definition writeOwnedString (value : string) (writer : Writer) : Writer :=
  (writer ++ encodeOwnedString fmt value)%list.
Definition writeOwnedBool (value : bool) (writer : Writer) : Writer :=
  (writer ++ encodeOwnedBool fmt value)%list.

(** [IntProp.writeToMlirBytecode]: the storage is passed as [uint64_t]. *)
Definition IntProp_writeToMlirBytecode (T : IntType) (storage : Z)
    (writer : Writer) : Writer :=
  writeVarInt (convert uint64_t storage) writer.

(** [IntProp.readFromMlirBytecode]: [val] is a [uint64_t], assigned to a
    storage of type [T]. *)
Definition IntProp_readFromMlirBytecode (T : IntType) (reader : Reader)
    (storage : Z) : ReadOutcome Z :=
  match decodeVarInt fmt reader with
  | None => (failure, storage, reader)
  | Some (val, reader') => (success, convert T val, reader')
  end.

(** [_cls_StringProp.writeToMlirBytecode]. *)
Definition StringProp_writeToMlirBytecode (storage : string)
    (writer : Writer) : Writer :=
  writeOwnedString storage writer.

(** [_cls_StringProp.readFromMlirBytecode]. *)
Definition StringProp_readFromMlirBytecode (reader : Reader)
    (storage : string) : ReadOutcome string :=
  match decodeString fmt reader with
  | None => (failure, storage, reader)
  | Some (val, reader') => (success, val, reader')
  end.

(** [_cls_BoolProp.writeToMlirBytecode]. *)
Definition BoolProp_writeToMlirBytecode (storage : bool) (writer : Writer)
  : Writer :=
  writeOwnedBool storage writer.

(** [_cls_BoolProp.readFromMlirBytecode]: the result of [readBool] is
    returned as it is. *)
Definition BoolProp_readFromMlirBytecode (reader : Reader) (storage : bool)
  : ReadOutcome bool :=
  match decodeBool fmt reader with
  | None => (failure, storage, reader)
  | Some (val, reader') => (success, val, reader')
  end.

(** [_cls_UnitProp.writeToMlirBytecode]. *)
Definition UnitProp_writeToMlirBytecode (storage : bool) (writer : Writer)
  : Writer :=
  writeOwnedBool storage writer.

(** [_cls_UnitProp.readFromMlirBytecode]. *)
Definition UnitProp_readFromMlirBytecode (reader : Reader) (storage : bool)
  : ReadOutcome bool :=
  match decodeBool fmt reader with
  | None => (failure, storage, reader)
  | Some (val, reader') => (success, val, reader')
  end.
End Bytecode.

(** A small format for running the templates: one stream unit per integer
    and per boolean, a string as its length followed by its characters. *)
Inductive Token : Type :=
| TInt (v : Z)
| TBool (b : bool)
| TChar (c : ascii).

Fixpoint encodeChars (s : string) : list Token :=
  match s with
  | EmptyString => []
  | String c rest => TChar c :: encodeChars rest
  end.

Fixpoint decodeChars (n : nat) (stream : list Token)
  : option (string * list Token) :=
  match n with
  | O => Some (EmptyString, stream)
  | Datatypes.S k =>
      match stream with
      | TChar c :: rest =>
          match decodeChars k rest with
          | Some (s, rest') => Some (String c s, rest')
          | None => None
          end
      | _ => None
      end
  end.

Definition tokenFormat : BytecodeFormat :=
  {| unit := Token;
     encodeVarInt := fun v => [TInt v];
     decodeVarInt := fun stream =>
       match stream with
       | TInt v :: rest => Some (v, rest)
       | _ => None
       end;
     encodeOwnedString := fun s =>
       TInt (Z.of_nat (String.length s)) :: encodeChars s;
     decodeString := fun stream =>
       match stream with
       | TInt n :: rest => decodeChars (Z.to_nat n) rest
       | _ => None
       end;
     encodeOwnedBool := fun b => [TBool b];
     decodeBool := fun stream =>
       match stream with
       | TBool b :: rest => Some (b, rest)
       | _ => None
       end |}.

End Gen.

(* ================================================================== *)
(** ** Vocabulary of the statements *)
(* ================================================================== *)

Module Statement.
Import Gen.

Section ArrayConversion.
Context {S I : Type} (elem : PropertyCode S I).

(** An element attribute is malformed when the element's own conversion,
    run on a fresh element storage, fails on it. *)
Definition malformed (elemAttr : Attribute) : bool :=
  failed (result (convertFromAttribute elem elemAttr (freshStorage elem))).

(** The storage values of the elements that come before the first
    malformed one, in order. *)
Fixpoint convertedBeforeFailure (elems : list Attribute) : list S :=
  match elems with
  | [] => []
  | elemAttr :: rest =>
      if malformed elemAttr
      then []
      else stored (convertFromAttribute elem elemAttr (freshStorage elem))
           :: convertedBeforeFailure rest
  end.

(** Abort before commit: a list with a malformed element makes the array
    conversion fail and leaves the destination as it was. *)
Definition aborts_before_commit : Prop :=
  forall (elems : list Attribute) (storage : list S),
    Exists (fun elemAttr => malformed elemAttr = true) elems ->
    let out := ArrayProp_convertFromAttribute elem (ArrayAttr elems) storage in
    result out = failure /\ stored out = storage.
End ArrayConversion.

End Statement.

(* ================================================================== *)
(** ** Text of the templates *)
(* ================================================================== *)

Module Text.

(** [t] occurs in [s], as a test. *)
Fixpoint occurs (t s : string) : bool :=
  prefix t s
  || match s with
     | EmptyString => false
     | String _ rest => occurs t rest
     end.

(** The character [c] occurs in [s]. *)
Fixpoint has_char (c : ascii) (s : string) : bool :=
  match s with
  | EmptyString => false
  | String a rest => Ascii.eqb a c || has_char c rest
  end.

(** A replacement that can stand for the placeholder [target] without ever
    running into it: it is not empty, its first character is not one of
    [target]'s, and [target]'s first character is not one of its own. *)
Definition apart (target repl : string) : bool :=
  match target, repl with
  | String c _, String r _ => negb (has_char c repl) && negb (has_char r target)
  | _, _ => false
  end.

End Text.

(* ================================================================== *)
(** ** Generated code: storage assignment, and what a round trip is *)
(* ================================================================== *)

Module Conversions.
Import Gen.

Section OptionalStorage.
Context {S I : Type} (p : PropertyCode S I).

(** [p.assignToStorage]: the storage after the assignment of [$_value] to
    [$_storage]. *)
Variable p_assignToStorage : I -> S -> S.

(** [OptionalProp.assignToStorage], the general template: an absent value
    clears the storage; a present one is assigned by [p] to a fresh variable,
    which is then moved into the storage. *)
Definition OptionalProp_assignToStorage (value : option I)
    (storage : option S) : option S :=
  match value with
  | None => None
  | Some present =>
      let presentVal := freshStorage p in
      Some (p_assignToStorage present presentVal)
  end.
End OptionalStorage.

(** The elements the array's loop visits: those up to and including the
    first one whose conversion fails. *)
Fixpoint visited {S I : Type} (elem : PropertyCode S I)
    (elems : list Attribute) : list Attribute :=
  match elems with
  | [] => []
  | elemAttr :: rest =>
      elemAttr
      :: (if failed (result (convertFromAttribute elem elemAttr
                               (freshStorage elem)))
          then []
          else visited elem rest)
  end.

(** An optional is valid when its value, if any, is. *)
Definition valid_optional {S : Type} (valid : S -> Prop) (storage : option S)
  : Prop :=
  match storage with
  | None => True
  | Some present => valid present
  end.

(** Converted from a fresh variable's point of view, the attribute of a
    [valid] value gives the value back. *)
Definition attribute_reads_back {S I : Type} (c : PropertyCode S I)
    (valid : S -> Prop) : Prop :=
  forall v : S,
    valid v ->
    let out := convertFromAttribute c (convertToAttribute c v) (freshStorage c) in
    result out = success /\ stored out = v.

End Conversions.

(* ================================================================== *)
(** ** Generated code: binary form of the containers *)
(* ================================================================== *)

Module Binary.
Import Gen.

Section BinaryCode.
Variable fmt : BytecodeFormat.

(** The binary code of a property with storage type [S]: its
    [writeToMlirBytecode] and [readFromMlirBytecode] bodies, and the value of
    the variable [_makePropStorage] declares for it. *)
Record BinaryCode (S : Type) : Type := mkBinaryCode {
  freshSlot : S;
  writeToMlirBytecode : S -> Writer fmt -> Writer fmt;
  readFromMlirBytecode : Reader fmt -> S -> ReadOutcome fmt S
}.
Arguments freshSlot {S}.
Arguments writeToMlirBytecode {S}.
Arguments readFromMlirBytecode {S}.

(** The primitive kinds.  An integer or boolean variable declared without
    an initializer holds whatever [indeterminate] value. *)
Definition IntProp_binary (T : IntType) (indeterminate : Z) : BinaryCode Z :=
  {| freshSlot := indeterminate;
     writeToMlirBytecode := IntProp_writeToMlirBytecode fmt T;
     readFromMlirBytecode := IntProp_readFromMlirBytecode fmt T |}.

Definition BoolProp_binary (indeterminate : bool) : BinaryCode bool :=
  {| freshSlot := indeterminate;
     writeToMlirBytecode := BoolProp_writeToMlirBytecode fmt;
     readFromMlirBytecode := BoolProp_readFromMlirBytecode fmt |}.

Definition StringProp_binary : BinaryCode string :=
  {| freshSlot := "";
     writeToMlirBytecode := StringProp_writeToMlirBytecode fmt;
     readFromMlirBytecode := StringProp_readFromMlirBytecode fmt |}.

Definition UnitProp_binary : BinaryCode bool :=
  {| freshSlot := false;
     writeToMlirBytecode := UnitProp_writeToMlirBytecode fmt;
     readFromMlirBytecode := UnitProp_readFromMlirBytecode fmt |}.

Section ArrayProp.
Context {S : Type} (elem : BinaryCode S).

(** [ArrayProp.writeToMlirBytecode]: the size, then each element in
    order. *)
Definition ArrayProp_writeToMlirBytecode (storage : list S)
    (writer : Writer fmt) : Writer fmt :=
  fold_left (fun writer elemVal => writeToMlirBytecode elem elemVal writer)
    storage
    (writeVarInt fmt (Z.of_nat (List.length storage)) writer).

(** The [for] loop of [ArrayProp.readFromMlirBytecode], with [remaining]
    elements still to read. *)
Fixpoint ArrayProp_readElements (remaining : nat) (reader : Reader fmt)
    (storage : list S) : ReadOutcome fmt (list S) :=
  match remaining with
  | O => (success, storage, reader)
  | Datatypes.S remaining' =>
      let elemVal := freshSlot elem in
      match readFromMlirBytecode elem reader elemVal with
      | (elemRead, elemVal', reader') =>
          if failed elemRead
          then (failure, storage, reader')
          else ArrayProp_readElements remaining' reader'
                 (storage ++ [elemVal'])
      end
  end.

(** [ArrayProp.readFromMlirBytecode].  [reserve] only sets capacity and is
    taken to succeed: a length the allocator cannot serve ends the program
    and is outside this model. *)
Definition ArrayProp_readFromMlirBytecode (reader : Reader fmt)
    (storage : list S) : ReadOutcome fmt (list S) :=
  match decodeVarInt fmt reader with
  | None => (failure, storage, reader)
  | Some (length, reader') =>
      ArrayProp_readElements (Z.to_nat length) reader' storage
  end.

Definition ArrayProp_binary : BinaryCode (list S) :=
  {| freshSlot := [];
     writeToMlirBytecode := ArrayProp_writeToMlirBytecode;
     readFromMlirBytecode := ArrayProp_readFromMlirBytecode |}.
End ArrayProp.

Section OptionalProp.
Context {S : Type} (p : BinaryCode S).

(** [OptionalProp.writeToMlirBytecode]: the presence flag, then [p]'s form
    of the value if there is one. *)
Definition OptionalProp_writeToMlirBytecode (storage : option S)
    (writer : Writer fmt) : Writer fmt :=
  match storage with
  | None => writeOwnedBool fmt false writer
  | Some present =>
      writeToMlirBytecode p present (writeOwnedBool fmt true writer)
  end.

(** [OptionalProp.readFromMlirBytecode]. *)
Definition OptionalProp_readFromMlirBytecode (reader : Reader fmt)
    (storage : option S) : ReadOutcome fmt (option S) :=
  match decodeBool fmt reader with
  | None => (failure, storage, reader)
  | Some (isPresent, reader') =>
      if negb isPresent
      then (success, None, reader')
      else
        let presentVal := freshSlot p in
        match readFromMlirBytecode p reader' presentVal with
        | (presentResult, presentVal', reader'') =>
            if failed presentResult
            then (failure, storage, reader'')
            else (success, Some presentVal', reader'')
        end
  end.

Definition OptionalProp_binary : BinaryCode (option S) :=
  {| freshSlot := None;
     writeToMlirBytecode := OptionalProp_writeToMlirBytecode;
     readFromMlirBytecode := OptionalProp_readFromMlirBytecode |}.
End OptionalProp.

(** A writer only adds to what has been written. *)
Definition writes_by_appending {S : Type} (c : BinaryCode S) : Prop :=
  forall (v : S) (writer : Writer fmt),
    writeToMlirBytecode c v writer
    = (writer ++ writeToMlirBytecode c v [])%list.

(** Read into a fresh variable, the binary form of a [valid] value gives the
    value back and leaves the reader at what follows. *)
Definition reads_back {S : Type} (c : BinaryCode S) (valid : S -> Prop)
  : Prop :=
  forall (v : S) (rest : Reader fmt),
    valid v ->
    readFromMlirBytecode c (writeToMlirBytecode c v [] ++ rest)%list
      (freshSlot c)
    = (success, v, rest).
End BinaryCode.

Arguments freshSlot {fmt S}.
Arguments writeToMlirBytecode {fmt S}.
Arguments readFromMlirBytecode {fmt S}.
Arguments ArrayProp_binary {fmt S}.
Arguments OptionalProp_binary {fmt S}.
Arguments writes_by_appending {fmt S}.
Arguments reads_back {fmt S}.

(** The values a binary array can carry: fewer than [2 ^ 64] elements, each
    of them valid. *)
Definition valid_array {S : Type} (valid : S -> Prop) (storage : list S)
  : Prop :=
  (Z.of_nat (List.length storage) < 2 ^ 64)%Z /\ Forall valid storage.

(** The parts of a read's outcome. *)
Definition read_result {fmt : BytecodeFormat} {S : Type}
    (out : ReadOutcome fmt S) : LogicalResult := fst (fst out).
Definition read_stored {fmt : BytecodeFormat} {S : Type}
    (out : ReadOutcome fmt S) : S := snd (fst out).
Definition read_rest {fmt : BytecodeFormat} {S : Type}
    (out : ReadOutcome fmt S) : Reader fmt := snd out.

End Binary.

(* ================================================================== *)
(** ** Generated code: surface syntax of the optional *)
(* ================================================================== *)

Module Syntax.
Import Gen.

(** Modelled from the spec: the host's textual parser, by the primitives the
    optional's parser templates call.  [position] is the parser together with
    where it stands in its input; a primitive returns its result and the
    parser afterwards.  [parseOptionalKeywordAmong] is
    [parseOptionalKeyword(&keyword, {...})]: the keyword if one of the
    allowed ones is next, nothing otherwise.  [emitError] reports at the
    current location and converts to failure. *)
Record OpAsmParser : Type := mkOpAsmParser {
  position : Type;
  parseOptionalKeyword : string -> position -> LogicalResult * position;
  parseOptionalKeywordAmong :
    list string -> position -> option string * position;
  parseLess : position -> LogicalResult * position;
  parseGreater : position -> LogicalResult * position;
  emitError : string -> position -> position
}.

Section OptionalParsers.
Variable host : OpAsmParser.
Context {S : Type}.

(** What running a parser body leaves behind: what it returns, the content
    of [$_storage], and the parser. *)
Definition ParseOutcome (R : Type) : Type :=
  (R * option S * position host)%type.

(** The wrapped property: the variable [_makePropStorage] declares for it,
    its [parser] in a lambda that returns a [ParseResult], and its
    [optionalParser] in a lambda that returns an [OptionalParseResult]
    ([None] is [std::nullopt]). *)
Variable p_freshStorage : S.
Variable p_parser : position host -> S -> LogicalResult * S * position host.
Variable p_optionalParser :
  position host -> S -> option LogicalResult * S * position host.

(** [delegatedParserBegin # nothing # delegatedParserEnd], for a body whose
    return type [R] receives [success], [failure] and, where the wrapped
    optional parser found nothing, [nothing]. *)
Definition delegatedParserBody {R : Type} (succeeded failed_ nothing : R)
    (parser : position host) (storage : option S) : ParseOutcome R :=
  match parseOptionalKeyword host "none" parser with
  | (success, parser') => (succeeded, None, parser')
  | (failure, parser') =>
      let presentVal := p_freshStorage in
      match p_optionalParser parser' presentVal with
      | (None, _, parser'') => (nothing, storage, parser'')
      | (Some delegParseResult, presentVal', parser'') =>
          if failed delegParseResult
          then (failed_, storage, parser'')
          else (succeeded, Some presentVal', parser'')
      end
  end.

(** [defvar delegatedParser]: nothing there is a failure. *)
Definition delegatedParser := delegatedParserBody success failure failure.

(** [defvar delegatedOptionalParser]: nothing there is [std::nullopt]. *)
Definition delegatedOptionalParser :=
  delegatedParserBody (Some success) (Some failure) None.

(** [generalParserBegin # nothing # generalParserEnd]; [nothing] is what the
    body does when neither [none] nor [some] is next. *)
Definition generalParserBody {R : Type} (succeeded failed_ : R)
    (nothing : position host -> R * position host)
    (parser : position host) (storage : option S) : ParseOutcome R :=
  match parseOptionalKeywordAmong host ["none"; "some"] parser with
  | (None, parser') =>
      let (r, parser'') := nothing parser' in (r, storage, parser'')
  | (Some keyword, parser') =>
      if (keyword =? "none")%string
      then (succeeded, None, parser')
      else
        match parseLess host parser' with
        | (failure, parser'') => (failed_, storage, parser'')
        | (success, parser'') =>
            let presentVal := p_freshStorage in
            match p_parser parser'' presentVal with
            | (failure, _, parser3) => (failed_, storage, parser3)
            | (success, presentVal', parser3) =>
                match parseGreater host parser3 with
                | (failure, parser4) => (failed_, storage, parser4)
                | (success, parser4) => (succeeded, Some presentVal', parser4)
                end
            end
        end
  end.

(** [defvar generalParser]: an error at the current location. *)
Definition generalParser :=
  generalParserBody success failure
    (fun parser =>
       (failure, emitError host "expected 'none' or 'some<prop>'" parser)).

(** [defvar generalOptionalParser]. *)
Definition generalOptionalParser :=
  generalParserBody (Some success) (Some failure)
    (fun parser => (None, parser)).
End OptionalParsers.

Section Printers.
Context {S : Type}.

(** The text a wrapped property's [printer] sends to [$_printer]. *)
Variable p_printer : S -> string.

(** [defvar delegatedPrinter]. *)
Definition delegatedPrinter (storage : option S) : string :=
  match storage with
  | None => "none"
  | Some present => p_printer present
  end.

(** [defvar generalPrinter]. *)
Definition generalPrinter (storage : option S) : string :=
  match storage with
  | None => "none"
  | Some present => "some<" ++ p_printer present ++ ">"
  end.

End Printers.

(** What a mandatory parser reports where the optional one reports
    [std::nullopt]: a failure. *)
Definition mandatory (r : option LogicalResult) : LogicalResult :=
  match r with
  | Some r => r
  | None => failure
  end.

(** [_cls_UnitProp.printer]. *)
Definition UnitProp_printer (storage : bool) : string :=
  if storage then "unit" else "unit_absent".

End Syntax.

(* ================================================================== *)
(** ** Properties of the TableGen layer *)
(* ================================================================== *)

Section StringFacts.

Lemma append_assoc (a b c : string) : (a ++ b) ++ c = a ++ b ++ c.
Proof.
  induction a as [|ch a IH]; simpl; [reflexivity | now rewrite IH].
Qed.

Lemma append_empty_r (a : string) : a ++ "" = a.
Proof.
  induction a as [|ch a IH]; simpl; [reflexivity | now rewrite IH].
Qed.

Lemma empty_true (s : string) : Td.empty s = true <-> s = "".
Proof.
  destruct s; simpl; split; intros H; try reflexivity; discriminate.
Qed.

Lemma empty_false (s : string) : Td.empty s = false <-> s <> "".
Proof.
  destruct s; simpl; split; intros H; try reflexivity;
    try discriminate; now contradiction H.
Qed.

Lemma eq_TruePred_true (q : Td.Pred) :
  Td.eq_TruePred q = true <-> q = Td.TruePred.
Proof.
  destruct q; simpl; split; intros H; try reflexivity; discriminate.
Qed.

Lemma eq_TruePred_false (q : Td.Pred) :
  Td.eq_TruePred q = false <-> q <> Td.TruePred.
Proof.
  destruct q; simpl; split; intros H; try reflexivity;
    try discriminate; now contradiction H.
Qed.

Lemma contains_here (before t after : string) :
  Td.contains (before ++ t ++ after) t.
Proof. now exists before, after. Qed.

Lemma contains_app_l (u s t : string) :
  Td.contains s t -> Td.contains (u ++ s) t.
Proof.
  intros (before & after & ->).
  exists (u ++ before), after. now rewrite append_assoc.
Qed.

Lemma contains_app_r (u s t : string) :
  Td.contains s t -> Td.contains (s ++ u) t.
Proof.
  intros (before & after & ->).
  exists before, (after ++ u). now rewrite !append_assoc.
Qed.

(** Two strings that differ at a position differ. *)
Lemma differ_at (n : nat) (a b : string) :
  String.get n a <> String.get n b -> a <> b.
Proof. intros H ->. now apply H. Qed.

End StringFacts.

Create HintDb contains.
#[local] Hint Resolve contains_here contains_app_l contains_app_r : contains.

(** C9.  [DefaultValuedProp<p, default, storageDefault>] takes its default
    value and its storage initializer from its own arguments and every other
    field from [p], as [p] has it: the seven behaviour fragments (storage and
    interface conversions, attribute conversions, hashing, parser and optional
    parser, printer, binary read and write), the predicate, both types, the
    summary and the description. *)
Theorem DefaultValuedProp_forwards
    (p : Td.Property) (default storageDefault : string) :
  let d := Td.DefaultValuedProp p default storageDefault in
  Td.defaultValue d = default
  /\ Td.storageTypeValueOverride d = storageDefault
  /\ Td.convertFromStorage d = Td.convertFromStorage p
  /\ Td.assignToStorage d = Td.assignToStorage p
  /\ Td.convertToAttribute d = Td.convertToAttribute p
  /\ Td.convertFromAttribute d = Td.convertFromAttribute p
  /\ Td.hashProperty d = Td.hashProperty p
  /\ Td.parser d = Td.parser p
  /\ Td.optionalParser d = Td.optionalParser p
  /\ Td.printer d = Td.printer p
  /\ Td.writeToMlirBytecode d = Td.writeToMlirBytecode p
  /\ Td.readFromMlirBytecode d = Td.readFromMlirBytecode p
  /\ Td.predicate d = Td.predicate p
  /\ Td.storageType d = Td.storageType p
  /\ Td.interfaceType d = Td.interfaceType p
  /\ Td.summary d = Td.summary p
  /\ Td.description d = Td.description p.
Proof. cbv zeta. unfold Td.DefaultValuedProp. simpl. repeat split. Qed.

(** C4.  [ConfinedProp<p, q, newSummary>] has the predicate
    [And<[p.predicate, q]>] when [p.predicate] is not [TruePred] and the
    predicate [q] when it is; its summary is [newSummary], or [p]'s when
    [newSummary] is empty; every other field is [p]'s, unchanged. *)
Theorem ConfinedProp_conjoins_and_forwards
    (p : Td.Property) (q : Td.Pred) (newSummary : string) :
  let c := Td.ConfinedProp p q newSummary in
  (Td.predicate p <> Td.TruePred ->
     Td.predicate c = Td.And [Td.predicate p; q])
  /\ (Td.predicate p = Td.TruePred -> Td.predicate c = q)
  /\ (newSummary = "" -> Td.summary c = Td.summary p)
  /\ (newSummary <> "" -> Td.summary c = newSummary)
  /\ Td.convertFromStorage c = Td.convertFromStorage p
  /\ Td.assignToStorage c = Td.assignToStorage p
  /\ Td.convertToAttribute c = Td.convertToAttribute p
  /\ Td.convertFromAttribute c = Td.convertFromAttribute p
  /\ Td.hashProperty c = Td.hashProperty p
  /\ Td.parser c = Td.parser p
  /\ Td.optionalParser c = Td.optionalParser p
  /\ Td.printer c = Td.printer p
  /\ Td.writeToMlirBytecode c = Td.writeToMlirBytecode p
  /\ Td.readFromMlirBytecode c = Td.readFromMlirBytecode p
  /\ Td.storageType c = Td.storageType p
  /\ Td.interfaceType c = Td.interfaceType p
  /\ Td.description c = Td.description p
  /\ Td.defaultValue c = Td.defaultValue p
  /\ Td.storageTypeValueOverride c = Td.storageTypeValueOverride p.
Proof.
  cbv zeta. unfold Td.ConfinedProp. simpl.
  split; [|split; [|split; [|split]]].
  - intros H. apply eq_TruePred_false in H. now rewrite H.
  - intros H. apply eq_TruePred_true in H. now rewrite H.
  - intros ->. reflexivity.
  - intros H. apply empty_false in H. now rewrite H.
  - repeat split.
Qed.

(** The strict integer [ConfinedProp<ConfinedProp<I32Prop, "> 0">, "< 10">]
    carries the conjunction of both conditions, and the inner one, over a
    property whose predicate is [TruePred], carries its condition alone. *)
Lemma ConfinedProp_conjoins_and_forwards_witness :
  let positive := Td.ConfinedProp Td.I32Prop (Td.CPred "$_self > 0") "" in
  Td.predicate (Td.ConfinedProp positive (Td.CPred "$_self < 10") "small")
  = Td.And [Td.CPred "$_self > 0"; Td.CPred "$_self < 10"]
  /\ Td.predicate positive = Td.CPred "$_self > 0"
  /\ Td.summary positive = "int32_t"
  /\ Td.summary (Td.ConfinedProp positive (Td.CPred "$_self < 10") "small")
     = "small".
Proof.
  cbv zeta.
  pose proof (ConfinedProp_conjoins_and_forwards Td.I32Prop
                (Td.CPred "$_self > 0") "") as inner.
  pose proof (ConfinedProp_conjoins_and_forwards
                (Td.ConfinedProp Td.I32Prop (Td.CPred "$_self > 0") "")
                (Td.CPred "$_self < 10") "small") as outer.
  cbv zeta in inner, outer.
  destruct inner as (_ & inner_true & inner_summary & _).
  destruct outer as (outer_and & _ & _ & outer_summary & _).
  split; [|split; [|split]].
  - rewrite outer_and; [reflexivity | discriminate].
  - apply inner_true. reflexivity.
  - rewrite inner_summary; reflexivity.
  - apply outer_summary. discriminate.
Defined.

(** The condition under which [OptionalProp<p, canDelegateParsing>]
    delegates: [p] has no default value, [p] has an optional parser, and
    delegation is allowed. *)
Lemma delegatesParsing_true (p : Td.Property) (canDelegateParsing : bool) :
  Td.delegatesParsing p canDelegateParsing = true
  <-> Td.defaultValue p = "" /\ Td.optionalParser p <> ""
      /\ canDelegateParsing = true.
Proof.
  unfold Td.delegatesParsing.
  rewrite !andb_true_iff, negb_true_iff, empty_true, empty_false.
  tauto.
Qed.

Lemma delegatesParsing_false (p : Td.Property) (canDelegateParsing : bool) :
  Td.delegatesParsing p canDelegateParsing = false
  <-> ~ (Td.defaultValue p = "" /\ Td.optionalParser p <> ""
         /\ canDelegateParsing = true).
Proof.
  rewrite <- delegatesParsing_true.
  destruct (Td.delegatesParsing p canDelegateParsing); split;
    intros H; try reflexivity; try discriminate.
  now contradiction H.
Qed.

(** C2.  A record that derives from [OptionalProp<p, canDelegateParsing>],
    with or without a [let defaultValue], exists only if the class assertion
    holds on it: when it delegates parsing its default value is
    ["std::nullopt"].  Delegated parsing together with any other default is
    answered with the assertion's message and no record; a record that leaves
    the default alone is always accepted. *)
Theorem OptionalProp_assert_rejects_mixed_default
    (p : Td.Property) (canDelegateParsing : bool) :
  (forall (newDefault : option string) (r : Td.Property),
     Td.def_OptionalProp p canDelegateParsing newDefault = inr r ->
     Td.delegatesParsing p canDelegateParsing = true ->
     Td.defaultValue r = "std::nullopt")
  /\ (forall v : string,
        Td.delegatesParsing p canDelegateParsing = true ->
        v <> "std::nullopt" ->
        Td.def_OptionalProp p canDelegateParsing (Some v)
        = inl Td.OptionalProp_assert_message)
  /\ Td.def_OptionalProp p canDelegateParsing None
     = inr (Td.OptionalProp p canDelegateParsing).
Proof.
  unfold Td.def_OptionalProp, Td.OptionalProp_assert.
  split; [|split].
  - intros newDefault r Hdef Hdel. rewrite Hdel in Hdef. simpl in Hdef.
    destruct newDefault as [v|].
    + destruct (String.eqb_spec
                  (Td.defaultValue
                     (Td.let_defaultValue v
                        (Td.OptionalProp p canDelegateParsing)))
                  "std::nullopt") as [Heq|Hne].
      * injection Hdef as <-. exact Heq.
      * discriminate Hdef.
    + injection Hdef as <-. reflexivity.
  - intros v Hdel Hne. rewrite Hdel. simpl.
    apply String.eqb_neq in Hne. now rewrite Hne.
  - simpl. now rewrite orb_true_r.
Qed.

(** An optional 32-bit integer delegates parsing: giving it the default
    ["0"] is refused, while the same default is accepted once delegation is
    switched off. *)
Lemma OptionalProp_assert_rejects_mixed_default_witness :
  Td.def_OptionalProp Td.I32Prop true (Some "0")
  = inl Td.OptionalProp_assert_message
  /\ (forall r : Td.Property,
        Td.def_OptionalProp Td.I32Prop true (Some "std::nullopt") = inr r ->
        Td.defaultValue r = "std::nullopt")
  /\ exists r : Td.Property,
       Td.def_OptionalProp Td.I32Prop false (Some "0") = inr r
       /\ Td.defaultValue r = "0".
Proof.
  destruct (OptionalProp_assert_rejects_mixed_default Td.I32Prop true)
    as (accepted & rejected & _).
  split; [|split].
  - apply rejected; [reflexivity | discriminate].
  - intros r Hdef. apply (accepted _ _ Hdef). reflexivity.
  - eexists. split; reflexivity.
Defined.

(** C3.  [OptionalProp<p, canDelegateParsing>] takes its parser, optional
    parser and printer from the delegated templates exactly when [p] has no
    default value, [p] has a non-empty optional parser and
    [canDelegateParsing] is set, and from the general [none] / [some<...>]
    templates in every other case.  The two families differ, so the fields
    tell which strategy was chosen when the record was built. *)
Theorem OptionalProp_strategy
    (p : Td.Property) (canDelegateParsing : bool) :
  let o := Td.OptionalProp p canDelegateParsing in
  let delegated :=
    Td.defaultValue p = "" /\ Td.optionalParser p <> ""
    /\ canDelegateParsing = true in
  (delegated ->
     Td.parser o = Td.delegatedParser p
     /\ Td.optionalParser o = Td.delegatedOptionalParser p
     /\ Td.printer o = Td.delegatedPrinter p)
  /\ (~ delegated ->
        Td.parser o = Td.generalParser p
        /\ Td.optionalParser o = Td.generalOptionalParser p
        /\ Td.printer o = Td.generalPrinter p)
  /\ Td.delegatedParser p <> Td.generalParser p
  /\ Td.delegatedOptionalParser p <> Td.generalOptionalParser p
  /\ Td.delegatedPrinter p <> Td.generalPrinter p.
Proof.
  cbv zeta. unfold Td.OptionalProp. simpl.
  split; [|split; [|split; [|split]]].
  - intros H. apply delegatesParsing_true in H. rewrite H. now repeat split.
  - intros H. apply delegatesParsing_false in H. rewrite H. now repeat split.
  - apply (differ_at 5). discriminate.
  - apply (differ_at 5). discriminate.
  - apply (differ_at 5). discriminate.
Qed.

(** An optional 32-bit integer is delegated; an optional unit property,
    which has the default ["false"], is not, and neither is an optional
    integer with delegation switched off. *)
Lemma OptionalProp_strategy_witness :
  Td.parser (Td.OptionalProp Td.I32Prop true) = Td.delegatedParser Td.I32Prop
  /\ Td.parser (Td.OptionalProp Td.UnitProp true)
     = Td.generalParser Td.UnitProp
  /\ Td.printer (Td.OptionalProp Td.I32Prop false)
     = Td.generalPrinter Td.I32Prop.
Proof.
  split; [|split].
  - apply (OptionalProp_strategy Td.I32Prop true).
    repeat split. discriminate.
  - apply (OptionalProp_strategy Td.UnitProp true).
    intros (H & _). discriminate H.
  - apply (OptionalProp_strategy Td.I32Prop false).
    intros (_ & _ & H). discriminate H.
Defined.

(** C10.  Every storage variable a container combinator declares for the
    property it wraps comes from [_makePropStorage], and [_makePropStorage]
    initializes by one rule: the wrapped property's
    [storageTypeValueOverride] if that is not empty, otherwise its
    [defaultValue] if that is not empty, otherwise nothing (the storage type's
    default construction).  The array declares its element variable this way
    in its attribute conversion, both parsers and its bytecode reader; the
    optional declares its present-value variable this way in its attribute
    conversion, both parsers (of either strategy), its bytecode reader and,
    unless storage is trivial, its assignment. *)
Theorem fresh_storage_initialized_by_one_rule :
  (forall (prop : Td.Property) (name : string),
     (Td.storageTypeValueOverride prop <> "" ->
        Td._makePropStorage prop name
        = Td.storageType prop ++ " " ++ name ++ " = "
          ++ Td.storageTypeValueOverride prop ++ ";")
     /\ (Td.storageTypeValueOverride prop = "" ->
         Td.defaultValue prop <> "" ->
           Td._makePropStorage prop name
           = Td.storageType prop ++ " " ++ name ++ " = "
             ++ Td.defaultValue prop ++ ";")
     /\ (Td.storageTypeValueOverride prop = "" ->
         Td.defaultValue prop = "" ->
           Td._makePropStorage prop name
           = Td.storageType prop ++ " " ++ name ++ ";"))
  /\ (forall (elem : Td.Property) (newSummary : string),
        let a := Td.ArrayProp elem newSummary in
        let slot := Td._makePropStorage elem "elemVal" in
        Td.contains (Td.convertFromAttribute a) slot
        /\ Td.contains (Td.parser a) slot
        /\ Td.contains (Td.optionalParser a) slot
        /\ Td.contains (Td.readFromMlirBytecode a) slot)
  /\ (forall (p : Td.Property) (canDelegateParsing : bool),
        let o := Td.OptionalProp p canDelegateParsing in
        let slot := Td._makePropStorage p "presentVal" in
        Td.contains (Td.convertFromAttribute o) slot
        /\ Td.contains (Td.parser o) slot
        /\ Td.contains (Td.optionalParser o) slot
        /\ Td.contains (Td.readFromMlirBytecode o) slot
        /\ (Td.hasTrivialStorage p = false ->
              Td.contains (Td.assignToStorage o) slot)).
Proof.
  split; [|split].
  - intros prop name. unfold Td._makePropStorage, Td.storageInitializer.
    split; [|split].
    + intros H. apply empty_false in H. rewrite H. reflexivity.
    + intros -> H. apply empty_false in H. rewrite H. reflexivity.
    + intros -> ->. reflexivity.
  - intros elem newSummary. cbv zeta. unfold Td.ArrayProp. cbn [
      Td.convertFromAttribute Td.parser Td.optionalParser
      Td.readFromMlirBytecode].
    repeat split; auto 20 with contains.
  - intros p canDelegateParsing. cbv zeta. unfold Td.OptionalProp. cbn [
      Td.convertFromAttribute Td.parser Td.optionalParser
      Td.readFromMlirBytecode Td.assignToStorage].
    repeat split.
    + auto 20 with contains.
    + destruct (Td.delegatesParsing p canDelegateParsing);
        unfold Td.delegatedParser, Td.delegatedParserBegin,
          Td.generalParser, Td.generalParserEnd; auto 20 with contains.
    + destruct (Td.delegatesParsing p canDelegateParsing);
        unfold Td.delegatedOptionalParser, Td.delegatedParserBegin,
          Td.generalOptionalParser, Td.generalParserEnd; auto 20 with contains.
    + auto 20 with contains.
    + intros ->. auto 20 with contains.
Qed.

(** The three cases of the rule on records of the file, and the optional
    string, whose storage is not trivial, declaring its present value. *)
Lemma fresh_storage_initialized_by_one_rule_witness :
  Td._makePropStorage (Td.DefaultValuedProp Td.I32Prop "0" "1") "elemVal"
  = "int32_t elemVal = 1;"
  /\ Td._makePropStorage Td.UnitProp "presentVal" = "bool presentVal = false;"
  /\ Td._makePropStorage Td.I32Prop "elemVal" = "int32_t elemVal;"
  /\ Td.contains (Td.assignToStorage (Td.OptionalProp Td.StringProp true))
       "std::string presentVal;".
Proof.
  destruct fresh_storage_initialized_by_one_rule as (rule & _ & optional).
  split; [|split; [|split]].
  - apply (rule (Td.DefaultValuedProp Td.I32Prop "0" "1") "elemVal").
    discriminate.
  - apply (rule Td.UnitProp "presentVal"); [reflexivity | discriminate].
  - apply (rule Td.I32Prop "elemVal"); reflexivity.
  - apply (optional Td.StringProp true). reflexivity.
Defined.

(* ================================================================== *)
(** ** Properties of the generated code *)
(* ================================================================== *)

Import Gen Statement.

(** C8.  The unit property converts the storage [true] to a unit attribute
    and the storage [false] to the boolean attribute [false]; converting back,
    a unit attribute gives [true] and a boolean attribute gives its value,
    both with success, so a stored flag survives the round trip; any other
    attribute is refused with failure and the storage is left alone. *)
Theorem UnitProp_attribute_conversion :
  UnitProp_convertToAttribute true = UnitAttr
  /\ UnitProp_convertToAttribute false = BoolAttr false
  /\ (forall storage : bool,
        UnitProp_convertFromAttribute UnitAttr storage
        = mkOutcome success true [])
  /\ (forall value storage : bool,
        UnitProp_convertFromAttribute (BoolAttr value) storage
        = mkOutcome success value [])
  /\ (forall flag storage : bool,
        UnitProp_convertFromAttribute (UnitProp_convertToAttribute flag) storage
        = mkOutcome success flag [])
  /\ (forall (attr : Attribute) (storage : bool),
        attr <> UnitAttr ->
        (forall value : bool, attr <> BoolAttr value) ->
        UnitProp_convertFromAttribute attr storage
        = mkOutcome failure storage []).
Proof.
  repeat split.
  - now intros [] storage.
  - intros attr storage not_unit not_bool.
    destruct attr as [|value| | |]; try reflexivity.
    + now contradiction not_unit.
    + now contradiction (not_bool value).
Qed.

(** A string attribute is not a flag: it is refused and the storage keeps
    its value. *)
Lemma UnitProp_attribute_conversion_witness :
  UnitProp_convertFromAttribute (StringAttr "unit") true
  = mkOutcome failure true [].
Proof.
  apply UnitProp_attribute_conversion; [discriminate | intros value; discriminate].
Defined.

(** C5.  The optional combinator writes absence as the empty array attribute
    and presence as a one-element array attribute holding [p]'s attribute.
    Reading back, an attribute that is not an array, or an array of more than
    one element, is a format error that leaves the storage alone; the empty
    array gives the absent value; a one-element array gives the present value
    that [p]'s conversion stores into a fresh storage, and when [p]'s
    conversion fails the failure is passed on and the storage is left
    alone. *)
Theorem OptionalProp_attribute_conversion
    {S I : Type} (p : PropertyCode S I) :
  OptionalProp_convertToAttribute p None = ArrayAttr []
  /\ (forall present : S,
        OptionalProp_convertToAttribute p (Some present)
        = ArrayAttr [convertToAttribute p present])
  /\ (forall (attr : Attribute) (storage : option S),
        (forall elements, attr <> ArrayAttr elements) ->
        OptionalProp_convertFromAttribute p attr storage
        = mkOutcome failure storage
            ["expected optional properties to materialize as arrays"])
  /\ (forall (elements : list Attribute) (storage : option S),
        (1 < List.length elements)%nat ->
        OptionalProp_convertFromAttribute p (ArrayAttr elements) storage
        = mkOutcome failure storage
            ["expected optional properties to become 0- or 1-element arrays"])
  /\ (forall storage : option S,
        OptionalProp_convertFromAttribute p (ArrayAttr []) storage
        = mkOutcome success None [])
  /\ (forall (presentAttr : Attribute) (storage : option S),
        let presentRes :=
          convertFromAttribute p presentAttr (freshStorage p) in
        (result presentRes = success ->
           OptionalProp_convertFromAttribute p (ArrayAttr [presentAttr]) storage
           = mkOutcome success (Some (stored presentRes)) (emitted presentRes))
        /\ (result presentRes = failure ->
              OptionalProp_convertFromAttribute p (ArrayAttr [presentAttr])
                storage
              = mkOutcome failure storage (emitted presentRes))).
Proof.
  split; [reflexivity|]. split; [reflexivity|].
  split; [|split; [|split; [reflexivity|]]].
  - intros attr storage not_array.
    destruct attr as [| | | |elements]; try reflexivity.
    now contradiction (not_array elements).
  - intros elements storage long. unfold OptionalProp_convertFromAttribute.
    apply Nat.ltb_lt in long. now rewrite long.
  - intros presentAttr storage; cbv zeta; split; intros H;
      unfold OptionalProp_convertFromAttribute; simpl; now rewrite H.
Qed.

(** An optional flag: a string is not an array, two flags are one too many,
    one flag is read as present, and a string inside the array fails in the
    flag's own conversion. *)
Lemma OptionalProp_attribute_conversion_witness :
  OptionalProp_convertFromAttribute UnitProp (StringAttr "none") (Some true)
  = mkOutcome failure (Some true)
      ["expected optional properties to materialize as arrays"]
  /\ OptionalProp_convertFromAttribute UnitProp
       (ArrayAttr [UnitAttr; UnitAttr]) None
     = mkOutcome failure None
         ["expected optional properties to become 0- or 1-element arrays"]
  /\ OptionalProp_convertFromAttribute UnitProp (ArrayAttr [UnitAttr]) None
     = mkOutcome success (Some true) []
  /\ OptionalProp_convertFromAttribute UnitProp
       (ArrayAttr [StringAttr "x"]) (Some true)
     = mkOutcome failure (Some true) [].
Proof.
  destruct (OptionalProp_attribute_conversion UnitProp)
    as (_ & _ & not_array & too_long & _ & one).
  split; [|split; [|split]].
  - apply not_array. intros elements. discriminate.
  - apply too_long. simpl. lia.
  - apply (one UnitAttr None). reflexivity.
  - apply (one (StringAttr "x") (Some true)). reflexivity.
Defined.

Section ArrayLoop.
Context {S I : Type} (elem : PropertyCode S I).

(** The loop appends to the destination as it goes: whatever the outcome,
    the destination ends as its previous content followed by the elements
    converted before the first malformed one. *)
Lemma ArrayProp_convertElements_stored
    (elems : list Attribute) (storage : list S) (diags : list string) :
  stored (ArrayProp_convertElements elem elems storage diags)
  = (storage ++ convertedBeforeFailure elem elems)%list.
Proof.
  revert storage diags.
  induction elems as [|elemAttr rest IH]; intros storage diags; simpl.
  - now rewrite app_nil_r.
  - unfold malformed.
    destruct (failed (result (convertFromAttribute elem elemAttr
                                (freshStorage elem)))); simpl.
    + now rewrite app_nil_r.
    + rewrite IH, <- app_assoc. reflexivity.
Qed.

(** The loop fails exactly on a list with a malformed element. *)
Lemma ArrayProp_convertElements_result
    (elems : list Attribute) (storage : list S) (diags : list string) :
  result (ArrayProp_convertElements elem elems storage diags) = failure
  <-> Exists (fun elemAttr => malformed elem elemAttr = true) elems.
Proof.
  revert storage diags.
  induction elems as [|elemAttr rest IH]; intros storage diags; simpl.
  - split; [discriminate | intros H; inversion H].
  - destruct (failed (result (convertFromAttribute elem elemAttr
                                (freshStorage elem)))) eqn:bad; simpl.
    + split; [intros _; now left | reflexivity].
    + rewrite IH. split; [now right |].
      intros H. inversion H as [? ? Hbad|]; subst; [|assumption].
      unfold malformed in Hbad. congruence.
Qed.

(** Not every element gets converted when one is malformed. *)
Lemma convertedBeforeFailure_short (elems : list Attribute) :
  Exists (fun elemAttr => malformed elem elemAttr = true) elems ->
  (List.length (convertedBeforeFailure elem elems) < List.length elems)%nat.
Proof.
  induction 1 as [elemAttr rest bad | elemAttr rest _ IH]; simpl.
  - rewrite bad. simpl. lia.
  - destruct (malformed elem elemAttr); simpl; lia.
Qed.
End ArrayLoop.

(** C1, as the code has it.  For an array attribute with at least one
    malformed element the array conversion returns failure, and by then it
    has appended to the destination storage, after what was there, the
    converted elements that precede the first malformed one, in order, and
    nothing else.  So the destination is untouched when the first element is
    the malformed one, and only then is no element emitted. *)
Theorem ArrayProp_convertFromAttribute_fails_appending_prefix
    {S I : Type} (elem : PropertyCode S I)
    (elems : list Attribute) (storage : list S)
    (has_malformed :
       Exists (fun elemAttr => malformed elem elemAttr = true) elems) :
  let out := ArrayProp_convertFromAttribute elem (ArrayAttr elems) storage in
  result out = failure
  /\ stored out = (storage ++ convertedBeforeFailure elem elems)%list
  /\ (List.length (convertedBeforeFailure elem elems) < List.length elems)%nat
  /\ (forall first rest, elems = first :: rest ->
        malformed elem first = true -> stored out = storage).
Proof.
  cbv zeta. unfold ArrayProp_convertFromAttribute.
  split; [|split; [|split]].
  - now apply ArrayProp_convertElements_result.
  - apply ArrayProp_convertElements_stored.
  - now apply convertedBeforeFailure_short.
  - intros first rest -> bad.
    rewrite ArrayProp_convertElements_stored. simpl.
    rewrite bad. apply app_nil_r.
Qed.

(** An array of flags read from a unit attribute, a [false] and a string:
    the conversion fails at the string, after the first two flags have been
    appended to the one that was there. *)
Lemma ArrayProp_convertFromAttribute_fails_appending_prefix_witness :
  let out :=
    ArrayProp_convertFromAttribute UnitProp
      (ArrayAttr [UnitAttr; BoolAttr false; StringAttr "x"; UnitAttr])
      [false] in
  result out = failure /\ stored out = [false; true; false].
Proof.
  cbv zeta.
  destruct (ArrayProp_convertFromAttribute_fails_appending_prefix UnitProp
              [UnitAttr; BoolAttr false; StringAttr "x"; UnitAttr] [false])
    as (fails & appended & _).
  - right. right. left. reflexivity.
  - split; [exact fails | exact appended].
Defined.

(** C1, as it is written, does not hold: an array of flags read from a unit
    attribute followed by a string fails with the first flag already in the
    destination. *)
Lemma ArrayProp_convertFromAttribute_commits_before_abort :
  ~ aborts_before_commit UnitProp.
Proof.
  intros claim.
  destruct (claim [UnitAttr; StringAttr "x"] []) as (_ & untouched).
  - right. left. reflexivity.
  - discriminate untouched.
Qed.

(** C7.  The predicate of [ArrayProp<elem>] is [TruePred] when [elem]'s is;
    otherwise it is [::llvm::all_of] over [$_self] of the wrapper that
    [_makeStorageWrapperPred] builds around [elem]'s predicate, and the code
    it stands for holds of a stored sequence exactly when [elem]'s predicate
    holds of every element once the element has been converted from storage
    to interface form. *)
Theorem ArrayProp_predicate_all_elements :
  (forall (elem : Td.Property) (newSummary : string),
     (Td.predicate elem = Td.TruePred ->
        Td.predicate (Td.ArrayProp elem newSummary) = Td.TruePred)
     /\ (Td.predicate elem <> Td.TruePred ->
           Td.predicate (Td.ArrayProp elem newSummary)
           = Td.Concat "::llvm::all_of($_self, "
               (Td.Concat
                  ("[](const " ++ Td.storageType elem
                     ++ "& baseStore) -> bool { return []("
                     ++ Td.interfaceType elem
                     ++ " baseIface) -> bool { return (")
                  (Td.SubstLeaves "$_self" "baseIface" (Td.predicate elem))
                  ("); }("
                     ++ Td.subst "$_storage" "baseStore"
                          (Td.convertFromStorage elem)
                     ++ "); }"))
               ")"))
  /\ (forall (S I : Type) (elem : PropertyCode S I),
        (predicate elem = TruePred -> ArrayProp_predicate elem = TruePred)
        /\ (predicate elem <> TruePred ->
              forall self : list S,
                holds (ArrayProp_predicate elem) self = true
                <-> (forall baseStore : S,
                       In baseStore self ->
                       holds (predicate elem)
                         (convertFromStorage elem baseStore) = true))).
Proof.
  split.
  - intros elem newSummary. unfold Td.ArrayProp. simpl. split.
    + intros ->. reflexivity.
    + intros H. apply eq_TruePred_false in H. rewrite H. reflexivity.
  - intros S I elem. unfold ArrayProp_predicate. split.
    + intros ->. reflexivity.
    + intros not_true self.
      destruct (predicate elem) as [|expr] eqn:pred;
        [now contradiction not_true|].
      simpl. unfold all_of, _makeStorageWrapperPred.
      rewrite forallb_forall, pred. reflexivity.
Qed.

(** An array of optional flags confined to be present: the predicate holds
    of [[Some true; Some false]] and fails once an absent element is in the
    sequence; an array of plain flags has the predicate [TruePred]. *)
Lemma ArrayProp_predicate_all_elements_witness :
  let present : PropertyCode (option bool) (option bool) :=
    {| freshStorage := None;
       convertFromStorage := fun storage => storage;
       convertToAttribute := OptionalProp_convertToAttribute UnitProp;
       convertFromAttribute := OptionalProp_convertFromAttribute UnitProp;
       predicate :=
         Cond (fun self => match self with Some _ => true | None => false end)
    |} in
  holds (ArrayProp_predicate present) [Some true; Some false] = true
  /\ holds (ArrayProp_predicate present) [Some true; None] <> true
  /\ ArrayProp_predicate UnitProp = TruePred
  /\ Td.predicate (Td.ArrayProp Td.UnitProp "") = Td.TruePred.
Proof.
  cbv zeta.
  match goal with
  | |- holds (ArrayProp_predicate ?e) _ = true /\ _ => set (present := e)
  end.
  destruct ArrayProp_predicate_all_elements as (template & code).
  destruct (code _ _ present) as (_ & nontrivial).
  assert (not_true : predicate present <> TruePred) by discriminate.
  pose proof (nontrivial not_true) as all_elements.
  split; [|split; [|split]].
  - apply all_elements.
    intros baseStore [<- | [<- | []]]; reflexivity.
  - intros H.
    pose proof (proj1 (all_elements _) H None (or_intror (or_introl eq_refl)))
      as absent.
    discriminate absent.
  - apply code. reflexivity.
  - apply template. reflexivity.
Defined.

Section IntegerConversion.

(** A value of a type of at most 64 bits, passed through [uint64_t] and
    back, is the value. *)
Lemma convert_through_uint64_t (T : IntType) (v : Z) :
  (0 < bits T <= 64)%Z ->
  representable T v ->
  convert T (convert uint64_t v) = v.
Proof.
  intros width range. unfold convert, representable in *.
  cbn [signed bits uint64_t andb].
  assert (pow_bits : (0 < 2 ^ bits T)%Z) by (apply Z.pow_pos_nonneg; lia).
  assert (pow_half : (2 ^ bits T = 2 * 2 ^ (bits T - 1))%Z).
  { rewrite <- Z.pow_succ_r by lia. f_equal. lia. }
  assert (pow_64 : (2 ^ 64 = 2 ^ (64 - bits T) * 2 ^ bits T)%Z).
  { rewrite <- Z.pow_add_r by lia. f_equal. lia. }
  assert (twice : ((v mod 2 ^ 64) mod 2 ^ bits T = v mod 2 ^ bits T)%Z).
  { apply Z.mod_mod_divide. exists (2 ^ (64 - bits T))%Z. exact pow_64. }
  rewrite twice.
  destruct (signed T); simpl.
  - destruct (Z.leb_spec (2 ^ (bits T - 1)) (v mod 2 ^ bits T)) as [high|low].
    + destruct (Z.lt_ge_cases v 0) as [neg|nonneg].
      * rewrite <- (Z.mod_add v 1) in * by lia.
        rewrite Z.mod_small in * by lia. lia.
      * rewrite Z.mod_small in * by lia. lia.
    + destruct (Z.lt_ge_cases v 0) as [neg|nonneg].
      * rewrite <- (Z.mod_add v 1) in * by lia.
        rewrite Z.mod_small in * by lia. lia.
      * apply Z.mod_small. lia.
  - apply Z.mod_small. lia.
Qed.

(** The range of [uint64_t]. *)
Lemma convert_uint64_t_range (v : Z) :
  (0 <= convert uint64_t v < 2 ^ 64)%Z.
Proof.
  unfold convert. cbn [signed bits uint64_t andb].
  apply Z.mod_pos_bound. lia.
Qed.

End IntegerConversion.

(** C6.  With bytecode primitives that read back what they write, each
    primitive kind reads back the storage value it wrote, whatever follows in
    the stream and whatever the storage held before: an integer property of
    a type of at most 64 bits for every value of that type, and the boolean,
    string and unit properties for every value. *)
Theorem primitive_bytecode_roundtrip
    (fmt : BytecodeFormat) (host : BytecodeFormat_correct fmt) :
  (forall (T : IntType) (v old : Z) (rest : Reader fmt),
     (0 < bits T <= 64)%Z ->
     representable T v ->
     IntProp_readFromMlirBytecode fmt T
       (IntProp_writeToMlirBytecode fmt T v [] ++ rest)%list old
     = (success, v, rest))
  /\ (forall (v old : bool) (rest : Reader fmt),
        BoolProp_readFromMlirBytecode fmt
          (BoolProp_writeToMlirBytecode fmt v [] ++ rest)%list old
        = (success, v, rest))
  /\ (forall (v old : string) (rest : Reader fmt),
        StringProp_readFromMlirBytecode fmt
          (StringProp_writeToMlirBytecode fmt v [] ++ rest)%list old
        = (success, v, rest))
  /\ (forall (v old : bool) (rest : Reader fmt),
        UnitProp_readFromMlirBytecode fmt
          (UnitProp_writeToMlirBytecode fmt v [] ++ rest)%list old
        = (success, v, rest)).
Proof.
  destruct host as [varint string_ bool_].
  split; [|split; [|split]].
  - intros T v old rest width range.
    unfold IntProp_readFromMlirBytecode, IntProp_writeToMlirBytecode,
      writeVarInt.
    simpl app. rewrite varint by apply convert_uint64_t_range.
    now rewrite convert_through_uint64_t.
  - intros v old rest.
    unfold BoolProp_readFromMlirBytecode, BoolProp_writeToMlirBytecode,
      writeOwnedBool.
    simpl app. now rewrite bool_.
  - intros v old rest.
    unfold StringProp_readFromMlirBytecode, StringProp_writeToMlirBytecode,
      writeOwnedString.
    simpl app. now rewrite string_.
  - intros v old rest.
    unfold UnitProp_readFromMlirBytecode, UnitProp_writeToMlirBytecode,
      writeOwnedBool.
    simpl app. now rewrite bool_.
Qed.

Section TokenFormat.

Lemma decodeChars_encodeChars (s : string) (rest : list Token) :
  decodeChars (String.length s) (encodeChars s ++ rest) = Some (s, rest).
Proof.
  induction s as [|c s IH]; simpl; [reflexivity | now rewrite IH].
Qed.

(** The token format reads back what it writes. *)
Lemma tokenFormat_correct : BytecodeFormat_correct tokenFormat.
Proof.
  split; simpl.
  - reflexivity.
  - intros s rest. rewrite Nat2Z.id. apply decodeChars_encodeChars.
  - reflexivity.
Qed.

End TokenFormat.

(** On the token format: the 32-bit [-1] travels as [2 ^ 64 - 1] and comes
    back as [-1]; a flag, a boolean and a string come back as written, with
    the rest of the stream left for the next reader. *)
Lemma primitive_bytecode_roundtrip_witness :
  IntProp_writeToMlirBytecode tokenFormat int32_t (-1) []
  = [TInt 18446744073709551615]
  /\ IntProp_readFromMlirBytecode tokenFormat int32_t
       (IntProp_writeToMlirBytecode tokenFormat int32_t (-1) []
          ++ [TBool true])%list 0
     = (success, (-1)%Z, [TBool true])
  /\ IntProp_readFromMlirBytecode tokenFormat int64_t
       (IntProp_writeToMlirBytecode tokenFormat int64_t
          (-9223372036854775808) [] ++ [])%list 7
     = (success, (-9223372036854775808)%Z, [])
  /\ BoolProp_readFromMlirBytecode tokenFormat
       (BoolProp_writeToMlirBytecode tokenFormat true [] ++ [TInt 3])%list
       false
     = (success, true, [TInt 3])
  /\ StringProp_readFromMlirBytecode tokenFormat
       (StringProp_writeToMlirBytecode tokenFormat "abc" [] ++ [TInt 3])%list
       "old"
     = (success, "abc", [TInt 3])
  /\ UnitProp_readFromMlirBytecode tokenFormat
       (UnitProp_writeToMlirBytecode tokenFormat false [] ++ [])%list true
     = (success, false, []).
Proof.
  destruct (primitive_bytecode_roundtrip tokenFormat tokenFormat_correct)
    as (int_ & bool_ & string_ & unit_).
  split; [reflexivity|].
  split; [|split; [|split; [|split]]].
  - apply (int_ int32_t); [simpl; lia | unfold representable; simpl; lia].
  - apply (int_ int64_t); [simpl; lia | unfold representable; simpl; lia].
  - apply (bool_ true false [TInt 3]).
  - apply (string_ "abc" "old" [TInt 3]).
  - apply (unit_ false true []).
Defined.

(* ================================================================== *)
(** ** Further properties of the templates *)
(* ================================================================== *)

Section TextFacts.

Lemma prefix_cons (a b : ascii) (t s : string) :
  prefix (String a t) (String b s) = true <-> a = b /\ prefix t s = true.
Proof.
  simpl. destruct (ascii_dec a b) as [->|ne]; split.
  - intros H. now split.
  - now intros (_ & H).
  - discriminate.
  - intros (eq & _). now contradiction ne.
Qed.

Lemma prefix_append (t s : string) :
  prefix t s = true <-> exists after : string, s = t ++ after.
Proof.
  revert s. induction t as [|a t IH]; intros s.
  - split; [intros _; now exists s | intros _; now destruct s].
  - destruct s as [|b s].
    + split; [discriminate | intros (after & H); discriminate H].
    + rewrite prefix_cons, IH. split.
      * intros (-> & after & ->). now exists after.
      * intros (after & H). injection H as -> ->. split; [reflexivity|].
        now exists after.
Qed.

(** The test [occurs] decides [contains]. *)
Lemma occurs_contains (t s : string) :
  Text.occurs t s = true <-> Td.contains s t.
Proof.
  induction s as [|b s IH].
  - cbn [Text.occurs]. rewrite orb_false_r, prefix_append. split.
    + intros (after & H). exists "", after. exact H.
    + intros (before & after & H). destruct before; [|discriminate H].
      now exists after.
  - cbn [Text.occurs]. rewrite orb_true_iff, prefix_append, IH. split.
    + intros [(after & H) | (before & after & H)].
      * exists "", after. exact H.
      * exists (String b before), after. simpl. now rewrite H.
    + intros (before & after & H). destruct before as [|a before].
      * left. now exists after.
      * right. injection H as -> ->. now exists before, after.
Qed.

Lemma not_occurs_contains (t s : string) :
  Text.occurs t s = false <-> ~ Td.contains s t.
Proof.
  rewrite <- occurs_contains. destruct (Text.occurs t s); split;
    intros H; try reflexivity; try discriminate.
  now contradiction H.
Qed.

Lemma has_char_cons (c a : ascii) (s : string) :
  Text.has_char c (String a s) = false <-> a <> c /\ Text.has_char c s = false.
Proof.
  simpl. rewrite orb_false_iff, Ascii.eqb_neq. reflexivity.
Qed.

(** No occurrence of a text starts inside a stretch that lacks its first
    character. *)
Lemma occurs_skip (c : ascii) (t x y : string) :
  Text.has_char c x = false ->
  Text.occurs (String c t) (x ++ y) = Text.occurs (String c t) y.
Proof.
  induction x as [|a x IH]; intros absent; [reflexivity|].
  apply has_char_cons in absent. destruct absent as (ne & absent).
  change (String a x ++ y) with (String a (x ++ y)).
  cbn [Text.occurs]. rewrite (IH absent).
  destruct (prefix (String c t) (String a (x ++ y))) eqn:here;
    [|reflexivity].
  apply prefix_cons in here. destruct here as (eq & _).
  now contradiction ne.
Qed.

Section Substitution.
Variables (target : string) (r : ascii) (repl : string).

(** What precedes a replacement in the output preceded it in the input:
    a text without the replacement's first character that starts the output
    starts the input. *)
Lemma prefix_subst_from (u s : string) :
  Text.has_char r u = false ->
  prefix u (Td.subst_from 0 target (String r repl) s) = true ->
  prefix u s = true.
Proof.
  revert s. induction u as [|b u IH]; intros s absent starts.
  - now destruct s.
  - apply has_char_cons in absent. destruct absent as (ne & absent).
    destruct s as [|a s]; [discriminate starts|].
    cbn [Td.subst_from] in starts.
    destruct (prefix target (String a s)).
    + change (String r repl ++ ?x) with (String r (repl ++ x)) in starts.
      apply prefix_cons in starts. destruct starts as (eq & _).
      now contradiction ne.
    + apply prefix_cons in starts. destruct starts as (-> & starts).
      apply prefix_cons. split; [reflexivity|]. now apply IH.
Qed.

(** Substitution creates no occurrence of a text that is apart from the
    replacement. *)
Lemma subst_from_no_new (u : string) (skip : nat) (s : string) :
  Text.apart u (String r repl) = true ->
  Text.occurs u (Td.subst_from skip target (String r repl) s) = true ->
  Text.occurs u s = true.
Proof.
  intros away. destruct u as [|c u]; [discriminate away|].
  cbn [Text.apart] in away. apply andb_true_iff in away.
  destruct away as (c_absent & r_absent).
  apply negb_true_iff in c_absent. apply negb_true_iff in r_absent.
  revert skip. induction s as [|a s IH]; intros skip found.
  - exact found.
  - cbn [Text.occurs]. apply orb_true_iff.
    cbn [Td.subst_from] in found. destruct skip as [|skip].
    + destruct (prefix target (String a s)).
      * rewrite occurs_skip in found by exact c_absent.
        right. exact (IH _ found).
      * cbn [Text.occurs] in found. apply orb_true_iff in found.
        destruct found as [here | later]; [left | right; exact (IH _ later)].
        apply prefix_cons in here. destruct here as (-> & here).
        apply prefix_cons. split; [reflexivity|].
        apply has_char_cons in r_absent.
        now apply (prefix_subst_from u s).
    + right. exact (IH _ found).
Qed.

(** Substitution leaves no occurrence of the target when the replacement is
    apart from it. *)
Lemma subst_from_removes (skip : nat) (s : string) :
  Text.apart target (String r repl) = true ->
  Text.occurs target (Td.subst_from skip target (String r repl) s) = false.
Proof.
  intros away. destruct target as [|c t] eqn:shape; [discriminate away|].
  rewrite <- shape in *.
  assert (c_absent : Text.has_char c (String r repl) = false).
  { rewrite shape in away. cbn [Text.apart] in away.
    apply andb_true_iff in away. now apply negb_true_iff. }
  assert (r_absent : Text.has_char r t = false).
  { rewrite shape in away. cbn [Text.apart] in away.
    apply andb_true_iff in away. destruct away as (_ & away).
    apply negb_true_iff in away. now apply has_char_cons in away. }
  revert skip. induction s as [|a s IH]; intros skip.
  - rewrite shape. reflexivity.
  - cbn [Td.subst_from]. destruct skip as [|skip]; [|apply IH].
    destruct (prefix target (String a s)) eqn:here.
    + rewrite shape at 1. rewrite occurs_skip by exact c_absent.
      rewrite <- shape. apply IH.
    + cbn [Text.occurs]. rewrite IH, orb_false_r.
      destruct (prefix target (String a (Td.subst_from 0 target
                                            (String r repl) s))) eqn:stale;
        [|reflexivity].
      rewrite shape in stale, here.
      apply prefix_cons in stale. destruct stale as (-> & stale).
      rewrite <- shape in stale.
      apply prefix_subst_from in stale; [|exact r_absent].
      assert (prefix (String a t) (String a s) = true) as contra
        by (apply prefix_cons; now split).
      congruence.
Qed.

(** Text that does not mention the target passes through unchanged. *)
Lemma subst_from_absent (s : string) :
  Text.occurs target s = false ->
  Td.subst_from 0 target (String r repl) s = s.
Proof.
  induction s as [|a s IH]; intros absent; [reflexivity|].
  cbn [Text.occurs] in absent. apply orb_false_iff in absent.
  destruct absent as (here & later).
  cbn [Td.subst_from]. rewrite here. now rewrite IH.
Qed.
End Substitution.

End TextFacts.

Section RescopingFacts.

Lemma subst_removes (target repl template : string) :
  Text.apart target repl = true ->
  ~ Td.contains (Td.subst target repl template) target.
Proof.
  intros away. apply not_occurs_contains. unfold Td.subst.
  destruct target as [|c t]; [discriminate away|].
  destruct repl as [|r repl]; [discriminate away|].
  cbn [Td.empty]. now apply subst_from_removes.
Qed.

Lemma subst_no_new (target repl other template : string) :
  Text.apart other repl = true ->
  ~ Td.contains template other ->
  ~ Td.contains (Td.subst target repl template) other.
Proof.
  intros away absent found. apply absent.
  apply occurs_contains. apply occurs_contains in found.
  unfold Td.subst in found. destruct (Td.empty target); [exact found|].
  destruct repl as [|r repl]; [now destruct other|].
  now apply (subst_from_no_new target r repl other 0).
Qed.

Lemma subst_absent (target repl template : string) :
  ~ Td.contains template target ->
  Td.subst target repl template = template.
Proof.
  intros absent. apply not_occurs_contains in absent. unfold Td.subst.
  destruct (Td.empty target); [reflexivity|].
  revert absent. induction template as [|a s IH]; intros absent;
    [reflexivity|].
  cbn [Text.occurs] in absent. apply orb_false_iff in absent.
  destruct absent as (here & later).
  cbn [Td.subst_from]. rewrite here. now rewrite IH.
Qed.

End RescopingFacts.

(** X1.  [!subst] as the combinators use it to re-scope a wrapped
    property's template: when the new name is apart from the placeholder,
    the result no longer mentions the placeholder, mentions no other
    placeholder that the template did not mention already, and is the
    template itself if the template never mentioned the placeholder. *)
Theorem subst_rescopes_placeholder (target repl template : string)
    (away : Text.apart target repl = true) :
  ~ Td.contains (Td.subst target repl template) target
  /\ (forall other : string,
        Text.apart other repl = true ->
        ~ Td.contains template other ->
        ~ Td.contains (Td.subst target repl template) other)
  /\ (~ Td.contains template target ->
        Td.subst target repl template = template).
Proof.
  split; [|split].
  - now apply subst_removes.
  - intros other. apply subst_no_new.
  - apply subst_absent.
Qed.

(** The unit property's attribute reader, re-scoped for a lambda: no
    [$_storage] is left, no [$_diag] appears, and the writer template, which
    has no [$_attr], is untouched by a substitution for it. *)
Lemma subst_rescopes_placeholder_witness :
  ~ Td.contains
      (Td.subst "$_storage" "propStorage" (Td.convertFromAttribute Td.UnitProp))
      "$_storage"
  /\ ~ Td.contains
         (Td.subst "$_storage" "propStorage"
            (Td.convertFromAttribute Td.UnitProp))
         "$_diag"
  /\ Td.subst "$_attr" "propAttr" (Td.convertToAttribute Td.UnitProp)
     = Td.convertToAttribute Td.UnitProp.
Proof.
  destruct (subst_rescopes_placeholder "$_storage" "propStorage"
              (Td.convertFromAttribute Td.UnitProp) eq_refl)
    as (gone & no_new & _).
  destruct (subst_rescopes_placeholder "$_attr" "propAttr"
              (Td.convertToAttribute Td.UnitProp) eq_refl)
    as (_ & _ & same).
  split; [|split].
  - exact gone.
  - apply no_new; [reflexivity|].
    apply not_occurs_contains. reflexivity.
  - apply same. apply not_occurs_contains. reflexivity.
Defined.


(** X3.  Trivial storage goes through nesting: an optional of [p] has
    trivial storage exactly when [p] has, so an optional of an optional of a
    plain-data property still uses the identity conversions, and an optional
    of an optional of a string still converts. *)
Theorem OptionalProp_keeps_trivial_storage
    (p : Td.Property) (canDelegateParsing : bool) :
  Td.hasTrivialStorage (Td.OptionalProp p canDelegateParsing)
  = Td.hasTrivialStorage p
  /\ (Td.hasTrivialStorage p = true ->
        Td.convertFromStorage (Td.OptionalProp p canDelegateParsing)
        = "$_storage"
        /\ Td.assignToStorage (Td.OptionalProp p canDelegateParsing)
           = "$_storage = $_value").
Proof.
  destruct (Td.hasTrivialStorage p) eqn:trivial.
  - pose proof trivial as fields. unfold Td.hasTrivialStorage in fields.
    apply andb_true_iff in fields. destruct fields as (fields & types).
    apply andb_true_iff in fields. destruct fields as (from & assign).
    apply String.eqb_eq in from, assign, types.
    assert (Td.convertFromStorage (Td.OptionalProp p canDelegateParsing)
            = "$_storage") as from'.
    { unfold Td.OptionalProp. cbn [Td.convertFromStorage].
      now rewrite trivial. }
    assert (Td.assignToStorage (Td.OptionalProp p canDelegateParsing)
            = "$_storage = $_value") as assign'.
    { unfold Td.OptionalProp. cbn [Td.assignToStorage].
      now rewrite trivial. }
    split; [|now intros _].
    unfold Td.hasTrivialStorage at 1. rewrite from', assign'.
    unfold Td.OptionalProp.
    cbn [Td.storageType Td.interfaceType Td.Property_class].
    rewrite types. now rewrite !String.eqb_refl.
  - split; [|discriminate].
    unfold Td.hasTrivialStorage at 1. unfold Td.OptionalProp.
    cbn [Td.convertFromStorage]. rewrite trivial. reflexivity.
Qed.

(** The optional integer is trivial and says so at any depth; the optional
    string is not. *)
Lemma OptionalProp_keeps_trivial_storage_witness :
  Td.convertFromStorage (Td.OptionalProp (Td.OptionalProp Td.I32Prop true) true)
  = "$_storage"
  /\ Td.hasTrivialStorage (Td.OptionalProp Td.StringProp true) = false.
Proof.
  split.
  - apply (OptionalProp_keeps_trivial_storage
             (Td.OptionalProp Td.I32Prop true) true).
    reflexivity.
  - apply (OptionalProp_keeps_trivial_storage Td.StringProp true).
Defined.

(** X4.  What an optional delegates to.  An optional never delegates to
    another optional, nor to a property that was given a default value,
    whatever [canDelegateParsing] says, so those are always written
    [none] / [some<...>]; it delegates to an array whenever delegation is
    allowed; and confining a property changes nothing. *)
Theorem OptionalProp_delegation_through_combinators
    (p : Td.Property) (canDelegateParsing : bool) :
  (forall inner : bool,
     Td.delegatesParsing (Td.OptionalProp p inner) canDelegateParsing = false
     /\ Td.parser (Td.OptionalProp (Td.OptionalProp p inner) canDelegateParsing)
        = Td.generalParser (Td.OptionalProp p inner)
     /\ Td.printer (Td.OptionalProp (Td.OptionalProp p inner) canDelegateParsing)
        = Td.generalPrinter (Td.OptionalProp p inner))
  /\ (forall default storageDefault : string,
        default <> "" ->
        Td.delegatesParsing (Td.DefaultValuedProp p default storageDefault)
          canDelegateParsing = false)
  /\ (forall newSummary : string,
        Td.delegatesParsing (Td.ArrayProp p newSummary) canDelegateParsing
        = canDelegateParsing)
  /\ (forall (q : Td.Pred) (newSummary : string),
        Td.delegatesParsing (Td.ConfinedProp p q newSummary) canDelegateParsing
        = Td.delegatesParsing p canDelegateParsing).
Proof.
  split; [|split; [|split]].
  - intros inner.
    assert (Td.delegatesParsing (Td.OptionalProp p inner) canDelegateParsing
            = false) as never by reflexivity.
    split; [exact never|].
    unfold Td.OptionalProp at 1 3. cbn [Td.parser Td.printer].
    rewrite never. now split.
  - intros default storageDefault given. unfold Td.delegatesParsing.
    cbn [Td.DefaultValuedProp Td.defaultValue].
    apply empty_false in given. now rewrite given.
  - intros newSummary. unfold Td.delegatesParsing, Td.ArrayProp.
    cbn [Td.defaultValue Td.optionalParser Td.Property_class].
    reflexivity.
  - intros q newSummary. reflexivity.
Qed.

(** An optional of a 32-bit integer defaulting to [0] does not delegate,
    although the integer alone would. *)
Lemma OptionalProp_delegation_through_combinators_witness :
  Td.delegatesParsing (Td.DefaultValuedProp Td.I32Prop "0" "") true = false
  /\ Td.delegatesParsing Td.I32Prop true = true.
Proof.
  split; [|reflexivity].
  apply (OptionalProp_delegation_through_combinators Td.I32Prop true).
  discriminate.
Defined.

(** X5.  The trivially-true predicate is kept exactly: an array or an
    optional has the predicate [TruePred] if and only if the wrapped property
    has, a defaulted property has its property's predicate, and a confined
    property has [TruePred] only when both the property's predicate and the
    added one are [TruePred]. *)
Theorem TruePred_through_combinators (p : Td.Property) :
  (forall newSummary : string,
     Td.predicate (Td.ArrayProp p newSummary) = Td.TruePred
     <-> Td.predicate p = Td.TruePred)
  /\ (forall canDelegateParsing : bool,
        Td.predicate (Td.OptionalProp p canDelegateParsing) = Td.TruePred
        <-> Td.predicate p = Td.TruePred)
  /\ (forall default storageDefault : string,
        Td.predicate (Td.DefaultValuedProp p default storageDefault)
        = Td.predicate p)
  /\ (forall (q : Td.Pred) (newSummary : string),
        Td.predicate (Td.ConfinedProp p q newSummary) = Td.TruePred
        <-> Td.predicate p = Td.TruePred /\ q = Td.TruePred).
Proof.
  split; [|split; [|split]].
  - intros newSummary. unfold Td.ArrayProp. cbn [Td.predicate].
    destruct (Td.predicate p); simpl; split; intros H;
      try reflexivity; discriminate H.
  - intros canDelegateParsing. unfold Td.OptionalProp. cbn [Td.predicate].
    destruct (Td.predicate p); simpl; split; intros H;
      try reflexivity; discriminate H.
  - reflexivity.
  - intros q newSummary. unfold Td.ConfinedProp. cbn [Td.predicate].
    destruct (Td.predicate p); simpl; split; intros H;
      try discriminate H; try (destruct H as (H & _); discriminate H).
    + now split.
    + now destruct H.
Qed.

(** A list of optional flags needs no predicate; once the flag is confined,
    so is the list. *)
Lemma TruePred_through_combinators_witness :
  Td.predicate (Td.ArrayProp (Td.OptionalProp Td.UnitProp true) "")
  = Td.TruePred
  /\ Td.predicate
       (Td.ArrayProp (Td.ConfinedProp Td.UnitProp (Td.CPred "$_self") "") "")
     <> Td.TruePred.
Proof.
  split.
  - apply (TruePred_through_combinators (Td.OptionalProp Td.UnitProp true)).
    apply (TruePred_through_combinators Td.UnitProp). reflexivity.
  - intros H.
    apply (TruePred_through_combinators
             (Td.ConfinedProp Td.UnitProp (Td.CPred "$_self") "")) in H.
    apply (TruePred_through_combinators Td.UnitProp) in H.
    destruct H as (_ & H). discriminate H.
Defined.

(* ================================================================== *)
(** ** Further properties of the generated code *)
(* ================================================================== *)

Import Conversions Binary.

Section AttributeFacts.
Context {S I : Type} (elem : PropertyCode S I).

(** With no malformed element, every element is converted. *)
Lemma convertedBeforeFailure_all (elems : list Attribute) :
  Forall (fun elemAttr => malformed elem elemAttr = false) elems ->
  convertedBeforeFailure elem elems
  = map (fun elemAttr =>
           stored (convertFromAttribute elem elemAttr (freshStorage elem)))
      elems.
Proof.
  induction 1 as [|elemAttr rest good _ IH]; simpl; [reflexivity|].
  now rewrite good, IH.
Qed.

Lemma ArrayProp_convertElements_success
    (elems : list Attribute) (storage : list S) (diags : list string) :
  result (ArrayProp_convertElements elem elems storage diags) = success
  <-> Forall (fun elemAttr => malformed elem elemAttr = false) elems.
Proof.
  revert storage diags.
  induction elems as [|elemAttr rest IH]; intros storage diags; simpl.
  - split; [constructor | reflexivity].
  - destruct (failed (result (convertFromAttribute elem elemAttr
                                (freshStorage elem)))) eqn:bad; simpl.
    + split; [discriminate|]. intros H. inversion H as [|? ? good]; subst.
      unfold malformed in good. congruence.
    + rewrite IH. split.
      * intros H. now constructor.
      * intros H. now inversion H.
Qed.

(** The array's attribute is read back element by element when each
    element's attribute is. *)
Lemma ArrayProp_reads_back_onto (valid : S -> Prop) :
  attribute_reads_back elem valid ->
  forall (storage old : list S),
    Forall valid storage ->
    let out :=
      ArrayProp_convertFromAttribute elem
        (ArrayProp_convertToAttribute elem storage) old in
    result out = success /\ stored out = (old ++ storage)%list.
Proof.
  intros back storage old all_valid. cbv zeta.
  unfold ArrayProp_convertToAttribute, ArrayProp_convertFromAttribute.
  assert (Forall (fun elemAttr => malformed elem elemAttr = false)
            (map (fun elemVal => convertToAttribute elem elemVal) storage))
    as good.
  { apply Forall_map. apply (Forall_impl _ (P := valid)); [|exact all_valid].
    intros v ok. unfold malformed. destruct (back v ok) as (-> & _).
    reflexivity. }
  split.
  - now apply ArrayProp_convertElements_success.
  - rewrite ArrayProp_convertElements_stored.
    rewrite (convertedBeforeFailure_all _ good), map_map. f_equal.
    clear good. induction all_valid as [|v rest ok _ IH]; simpl;
      [reflexivity|].
    destruct (back v ok) as (_ & ->). now rewrite IH.
Qed.

Lemma OptionalProp_reads_back_onto (valid : S -> Prop) :
  attribute_reads_back elem valid ->
  forall (storage old : option S),
    valid_optional valid storage ->
    let out :=
      OptionalProp_convertFromAttribute elem
        (OptionalProp_convertToAttribute elem storage) old in
    result out = success /\ stored out = storage.
Proof.
  intros back [present|] old ok; cbv zeta; simpl; [|now split].
  destruct (back present ok) as (fine & same).
  rewrite fine. simpl. rewrite same. now split.
Qed.
End AttributeFacts.

(** The flag's attribute is read back, whatever the flag. *)
Lemma UnitProp_reads_back : attribute_reads_back UnitProp (fun _ => True).
Proof. intros [] _; now split. Qed.

(** X6.  An array attribute without a malformed element, and only such an
    array attribute, is converted with success; the destination then holds
    what it held before followed by every element's converted value, in
    order.  In particular the empty array attribute succeeds and changes
    nothing, and the destination is never cleared first. *)
Theorem ArrayProp_convertFromAttribute_appends_all
    {S I : Type} (elem : PropertyCode S I)
    (elems : list Attribute) (storage : list S) :
  let out := ArrayProp_convertFromAttribute elem (ArrayAttr elems) storage in
  (result out = success
   <-> Forall (fun elemAttr => malformed elem elemAttr = false) elems)
  /\ (result out = success ->
        stored out
        = (storage
           ++ map (fun elemAttr =>
                     stored (convertFromAttribute elem elemAttr
                               (freshStorage elem)))
                elems)%list)
  /\ (elems = [] -> result out = success /\ stored out = storage).
Proof.
  cbv zeta. unfold ArrayProp_convertFromAttribute.
  split; [|split].
  - apply ArrayProp_convertElements_success.
  - intros fine. apply ArrayProp_convertElements_success in fine.
    rewrite ArrayProp_convertElements_stored.
    now rewrite convertedBeforeFailure_all.
  - intros ->. now split.
Qed.

(** Three flags read onto a destination that already holds one. *)
Lemma ArrayProp_convertFromAttribute_appends_all_witness :
  stored (ArrayProp_convertFromAttribute UnitProp
            (ArrayAttr [UnitAttr; BoolAttr false; BoolAttr true]) [false])
  = [false; true; false; true]
  /\ stored (ArrayProp_convertFromAttribute UnitProp (ArrayAttr []) [true])
     = [true].
Proof.
  split.
  - apply (ArrayProp_convertFromAttribute_appends_all UnitProp
             [UnitAttr; BoolAttr false; BoolAttr true] [false]).
    reflexivity.
  - apply (ArrayProp_convertFromAttribute_appends_all UnitProp [] [true]).
    reflexivity.
Defined.

(** X7.  Attribute round trip of the array.  If the element's attribute is
    read back into a fresh element for every valid element value, then the
    attribute the array writes for a sequence of valid values is read back
    with success as that sequence, appended to whatever the destination held;
    read into a fresh array it gives the sequence itself, so arrays of arrays
    round-trip as well. *)
Theorem ArrayProp_attribute_roundtrip
    {S I : Type} (elem : PropertyCode S I) (valid : S -> Prop)
    (back : attribute_reads_back elem valid) :
  (forall storage old : list S,
     Forall valid storage ->
     let out :=
       ArrayProp_convertFromAttribute elem
         (ArrayProp_convertToAttribute elem storage) old in
     result out = success /\ stored out = (old ++ storage)%list)
  /\ attribute_reads_back (ArrayProp elem) (Forall valid).
Proof.
  split.
  - now apply ArrayProp_reads_back_onto.
  - intros storage ok. now apply (ArrayProp_reads_back_onto elem valid back).
Qed.

(** Flags, and lists of flags. *)
Lemma ArrayProp_attribute_roundtrip_witness :
  stored (ArrayProp_convertFromAttribute UnitProp
            (ArrayProp_convertToAttribute UnitProp [true; false]) [true])
  = [true; true; false]
  /\ attribute_reads_back (ArrayProp (ArrayProp UnitProp))
       (Forall (Forall (fun _ => True))).
Proof.
  split.
  - apply (ArrayProp_attribute_roundtrip UnitProp (fun _ => True)
             UnitProp_reads_back).
    repeat constructor.
  - apply (ArrayProp_attribute_roundtrip (ArrayProp UnitProp)).
    intros storage ok.
    now apply (ArrayProp_reads_back_onto UnitProp _ UnitProp_reads_back).
Defined.

(** X8.  Attribute round trip of the optional.  If [p]'s attribute is read
    back into a fresh value for every valid value, then the attribute the
    optional writes, for absent or for a valid present value, is read back
    with success as that same optional, whatever the destination held. *)
Theorem OptionalProp_attribute_roundtrip
    {S I : Type} (p : PropertyCode S I) (valid : S -> Prop)
    (back : attribute_reads_back p valid) :
  (forall storage old : option S,
     valid_optional valid storage ->
     let out :=
       OptionalProp_convertFromAttribute p
         (OptionalProp_convertToAttribute p storage) old in
     result out = success /\ stored out = storage)
  /\ attribute_reads_back (OptionalProp p) (valid_optional valid).
Proof.
  split.
  - now apply OptionalProp_reads_back_onto.
  - intros storage ok. now apply (OptionalProp_reads_back_onto p valid back).
Qed.

(** An optional flag over a destination that held another value, and a list
    of optional flags. *)
Lemma OptionalProp_attribute_roundtrip_witness :
  stored (OptionalProp_convertFromAttribute UnitProp
            (OptionalProp_convertToAttribute UnitProp None) (Some true))
  = None
  /\ stored (OptionalProp_convertFromAttribute UnitProp
               (OptionalProp_convertToAttribute UnitProp (Some false))
               (Some true))
     = Some false
  /\ attribute_reads_back (OptionalProp (ArrayProp UnitProp))
       (valid_optional (Forall (fun _ => True))).
Proof.
  destruct (OptionalProp_attribute_roundtrip UnitProp (fun _ => True)
              UnitProp_reads_back) as (onto & _).
  split; [|split].
  - apply (onto None (Some true)). exact Logic.I.
  - apply (onto (Some false) (Some true)). exact Logic.I.
  - apply (OptionalProp_attribute_roundtrip (ArrayProp UnitProp)).
    intros storage ok.
    now apply (ArrayProp_reads_back_onto UnitProp _ UnitProp_reads_back).
Defined.

(** X9.  The optional converts from an attribute all or nothing: whatever
    the attribute, and whatever [p]'s conversion does to the variable it is
    given, a failed conversion leaves the destination as it was, and a
    successful one leaves absent (for the empty array) or the value [p]
    stored into a fresh variable (for a one-element array). *)
Theorem OptionalProp_convertFromAttribute_all_or_nothing
    {S I : Type} (p : PropertyCode S I)
    (attr : Attribute) (storage : option S) :
  let out := OptionalProp_convertFromAttribute p attr storage in
  (result out = failure -> stored out = storage)
  /\ (result out = success ->
        (attr = ArrayAttr [] /\ stored out = None)
        \/ (exists presentAttr : Attribute,
              attr = ArrayAttr [presentAttr]
              /\ stored out
                 = Some (stored (convertFromAttribute p presentAttr
                                   (freshStorage p))))).
Proof.
  cbv zeta. destruct attr as [| | | |elements]; simpl;
    try (split; [reflexivity | discriminate]).
  destruct elements as [|presentAttr [|second elements]]; simpl.
  - split; [discriminate | intros _; left; now split].
  - destruct (failed (result (convertFromAttribute p presentAttr
                                (freshStorage p)))); simpl.
    + split; [reflexivity | discriminate].
    + split; [discriminate | intros _; right].
      exists presentAttr. now split.
  - split; [reflexivity | discriminate].
Qed.

(** An optional flag: a failure on a string keeps [Some true]; a success
    on a one-element array replaces it. *)
Lemma OptionalProp_convertFromAttribute_all_or_nothing_witness :
  stored (OptionalProp_convertFromAttribute UnitProp
            (ArrayAttr [StringAttr "x"]) (Some true))
  = Some true
  /\ (exists presentAttr : Attribute,
        ArrayAttr [BoolAttr false] = ArrayAttr [presentAttr]
        /\ stored (OptionalProp_convertFromAttribute UnitProp
                     (ArrayAttr [BoolAttr false]) (Some true))
           = Some (stored (convertFromAttribute UnitProp presentAttr
                             (freshStorage UnitProp)))).
Proof.
  split.
  - apply (OptionalProp_convertFromAttribute_all_or_nothing UnitProp
             (ArrayAttr [StringAttr "x"]) (Some true)).
    reflexivity.
  - destruct (OptionalProp_convertFromAttribute_all_or_nothing UnitProp
                (ArrayAttr [BoolAttr false]) (Some true)) as (_ & fine).
    destruct (fine eq_refl) as [(empty & _) | present];
      [discriminate empty | exact present].
Defined.

(** X10.  The predicate of [OptionalProp<p>] is [TruePred] when [p]'s is;
    otherwise it is the disjunction of ["!$_self.has_value()"] with [p]'s
    predicate re-scoped to the present value, and the code it stands for
    holds of an optional exactly when the optional is absent or [p]'s
    predicate holds of the present value; so absent always passes. *)
Theorem OptionalProp_predicate_absent_or_valid :
  (forall (p : Td.Property) (canDelegateParsing : bool),
     Td.predicate p <> Td.TruePred ->
     Td.predicate (Td.OptionalProp p canDelegateParsing)
     = Td.Or [Td.CPred "!$_self.has_value()";
              Td.SubstLeaves "$_self" ("(" ++ "*($_self))") (Td.predicate p)])
  /\ (forall (S I : Type) (p : PropertyCode S I),
        (predicate p = TruePred -> OptionalProp_predicate p = TruePred)
        /\ (predicate p <> TruePred ->
              forall self : option I,
                holds (OptionalProp_predicate p) self = true
                <-> self = None
                    \/ (exists present : I,
                          self = Some present
                          /\ holds (predicate p) present = true))).
Proof.
  split.
  - intros p canDelegateParsing constrained.
    apply eq_TruePred_false in constrained.
    unfold Td.OptionalProp. cbn [Td.predicate]. now rewrite constrained.
  - intros S I p. unfold OptionalProp_predicate. split.
    + intros ->. reflexivity.
    + intros constrained self.
      destruct (predicate p) as [|expr]; [now contradiction constrained|].
      destruct self as [present|]; simpl.
      * split.
        -- intros ok. right. now exists present.
        -- intros [absent | (v & same & ok)]; [discriminate absent|].
           now injection same as ->.
      * split; [now left | reflexivity].
Qed.

(** An optional over flags that must be set: absent and [Some true] pass,
    [Some false] does not. *)
Lemma OptionalProp_predicate_absent_or_valid_witness :
  let set : PropertyCode bool bool :=
    {| freshStorage := false;
       convertFromStorage := fun storage => storage;
       convertToAttribute := UnitProp_convertToAttribute;
       convertFromAttribute := UnitProp_convertFromAttribute;
       predicate := Cond (fun self => self) |} in
  holds (OptionalProp_predicate set) None = true
  /\ holds (OptionalProp_predicate set) (Some true) = true
  /\ holds (OptionalProp_predicate set) (Some false) <> true
  /\ Td.predicate
       (Td.OptionalProp (Td.ConfinedProp Td.UnitProp (Td.CPred "$_self") "")
          true)
     = Td.Or [Td.CPred "!$_self.has_value()";
              Td.SubstLeaves "$_self" ("(" ++ "*($_self))")
                (Td.CPred "$_self")].
Proof.
  cbv zeta.
  match goal with
  | |- holds (OptionalProp_predicate ?c) _ = true /\ _ => set (set_ := c)
  end.
  destruct OptionalProp_predicate_absent_or_valid as (template & code).
  destruct (code _ _ set_) as (_ & constrained).
  assert (predicate set_ <> TruePred) as not_true by discriminate.
  pose proof (constrained not_true) as meaning.
  split; [|split; [|split]].
  - apply meaning. now left.
  - apply meaning. right. now exists true.
  - intros ok. apply meaning in ok.
    destruct ok as [absent | (v & same & ok)]; [discriminate absent|].
    injection same as <-. discriminate ok.
  - apply (template (Td.ConfinedProp Td.UnitProp (Td.CPred "$_self") "")).
    discriminate.
Defined.

(** X11.  Storage conversions of the optional.  Assigning a value and
    converting the storage back gives the value whenever [p]'s own assignment
    and conversion do, starting from a fresh variable and whatever the
    storage held; and when [p]'s conversions are the identity, the general
    templates compute the identity too, which is what the trivial-storage
    shortcut generates instead. *)
Theorem OptionalProp_storage_conversions
    {S I : Type} (p : PropertyCode S I) (p_assignToStorage : I -> S -> S) :
  ((forall value : I,
      convertFromStorage p (p_assignToStorage value (freshStorage p)) = value) ->
   forall (value : option I) (storage : option S),
     OptionalProp_convertFromStorage p
       (OptionalProp_assignToStorage p p_assignToStorage value storage)
     = value)
  /\ (forall (q : PropertyCode S S) (q_assignToStorage : S -> S -> S),
        (forall storage : S, convertFromStorage q storage = storage) ->
        (forall value storage : S, q_assignToStorage value storage = value) ->
        (forall storage : option S,
           OptionalProp_convertFromStorage q storage = storage)
        /\ (forall value storage : option S,
              OptionalProp_assignToStorage q q_assignToStorage value storage
              = value)).
Proof.
  split.
  - intros back [present|] storage; simpl; [|reflexivity].
    now rewrite back.
  - intros q q_assignToStorage from_id assign_id. split.
    + intros [present|]; simpl; [|reflexivity]. now rewrite from_id.
    + intros [present|] storage; simpl; [|reflexivity].
      now rewrite assign_id.
Qed.

(** The flag, whose templates are [$_storage] and [$_storage = $_value]. *)
Lemma OptionalProp_storage_conversions_witness :
  OptionalProp_convertFromStorage UnitProp
    (OptionalProp_assignToStorage UnitProp (fun value _ => value)
       (Some true) None)
  = Some true
  /\ OptionalProp_assignToStorage UnitProp (fun value _ => value)
       None (Some true)
     = None.
Proof.
  destruct (OptionalProp_storage_conversions UnitProp (fun value _ => value))
    as (back & identity).
  split.
  - apply back. reflexivity.
  - apply (identity UnitProp (fun value _ => value)); reflexivity.
Defined.

Section BinaryFacts.
Variable fmt : BytecodeFormat.
Hypothesis host : BytecodeFormat_correct fmt.

(** The primitive kinds write by appending and read back what they wrote. *)
Lemma IntProp_binary_appends (T : IntType) (indeterminate : Z) :
  writes_by_appending (IntProp_binary fmt T indeterminate).
Proof. intros v writer. reflexivity. Qed.

Lemma IntProp_binary_reads_back (T : IntType) (indeterminate : Z) :
  (0 < bits T <= 64)%Z ->
  reads_back (IntProp_binary fmt T indeterminate) (representable T).
Proof.
  intros width v rest range. simpl.
  unfold IntProp_readFromMlirBytecode, IntProp_writeToMlirBytecode,
    writeVarInt.
  simpl app.
  rewrite (varint_roundtrip fmt host) by apply convert_uint64_t_range.
  now rewrite convert_through_uint64_t.
Qed.

Lemma BoolProp_binary_appends (indeterminate : bool) :
  writes_by_appending (BoolProp_binary fmt indeterminate).
Proof. intros v writer. reflexivity. Qed.

Lemma BoolProp_binary_reads_back (indeterminate : bool) :
  reads_back (BoolProp_binary fmt indeterminate) (fun _ => True).
Proof.
  intros v rest _. simpl.
  unfold BoolProp_readFromMlirBytecode, BoolProp_writeToMlirBytecode,
    writeOwnedBool.
  simpl app. now rewrite (bool_roundtrip fmt host).
Qed.

Lemma UnitProp_binary_appends : writes_by_appending (UnitProp_binary fmt).
Proof. intros v writer. reflexivity. Qed.

Lemma UnitProp_binary_reads_back :
  reads_back (UnitProp_binary fmt) (fun _ => True).
Proof.
  intros v rest _. simpl.
  unfold UnitProp_readFromMlirBytecode, UnitProp_writeToMlirBytecode,
    writeOwnedBool.
  simpl app. now rewrite (bool_roundtrip fmt host).
Qed.

Lemma StringProp_binary_appends : writes_by_appending (StringProp_binary fmt).
Proof. intros v writer. reflexivity. Qed.

Lemma StringProp_binary_reads_back :
  reads_back (StringProp_binary fmt) (fun _ => True).
Proof.
  intros v rest _. simpl.
  unfold StringProp_readFromMlirBytecode, StringProp_writeToMlirBytecode,
    writeOwnedString.
  simpl app. now rewrite (string_roundtrip fmt host).
Qed.

Section Wrapped.
Context {S : Type} (elem : BinaryCode fmt S) (valid : S -> Prop).
Hypothesis appends : writes_by_appending elem.

(** What the elements of an array occupy in the stream. *)
Lemma ArrayProp_write_elements (storage : list S) (writer : Writer fmt) :
  fold_left (fun writer elemVal => writeToMlirBytecode elem elemVal writer)
    storage writer
  = (writer
     ++ concat (map (fun elemVal => writeToMlirBytecode elem elemVal [])
                  storage))%list.
Proof.
  revert writer. induction storage as [|v storage IH]; intros writer; simpl.
  - now rewrite app_nil_r.
  - rewrite IH, (appends v writer), <- app_assoc. reflexivity.
Qed.

Lemma ArrayProp_binary_appends : writes_by_appending (ArrayProp_binary elem).
Proof.
  intros storage writer. simpl. unfold ArrayProp_writeToMlirBytecode.
  rewrite !ArrayProp_write_elements. unfold writeVarInt.
  simpl app. now rewrite <- !app_assoc.
Qed.

Lemma OptionalProp_binary_appends :
  writes_by_appending (OptionalProp_binary elem).
Proof.
  intros [present|] writer; simpl; unfold writeOwnedBool; [|reflexivity].
  rewrite (appends present (writer ++ _)%list).
  rewrite (appends present ([] ++ _)%list).
  simpl app. now rewrite <- app_assoc.
Qed.

Hypothesis back : reads_back elem valid.

(** The loop reads the elements that were written and stops where
    they end. *)
Lemma ArrayProp_readElements_written
    (storage old : list S) (rest : Reader fmt) :
  Forall valid storage ->
  ArrayProp_readElements fmt elem (List.length storage)
    (concat (map (fun elemVal => writeToMlirBytecode elem elemVal []) storage)
       ++ rest)%list old
  = (success, (old ++ storage)%list, rest).
Proof.
  intros ok. revert old.
  induction ok as [|v storage v_ok _ IH]; intros old; simpl.
  - now rewrite app_nil_r.
  - rewrite <- app_assoc, (back v _ v_ok). simpl.
    rewrite IH, <- app_assoc. reflexivity.
Qed.

Lemma ArrayProp_binary_reads_onto
    (storage old : list S) (rest : Reader fmt) :
  valid_array valid storage ->
  readFromMlirBytecode (ArrayProp_binary elem)
    (writeToMlirBytecode (ArrayProp_binary elem) storage [] ++ rest)%list old
  = (success, (old ++ storage)%list, rest).
Proof.
  intros (short & ok). simpl.
  unfold ArrayProp_readFromMlirBytecode, ArrayProp_writeToMlirBytecode.
  rewrite ArrayProp_write_elements. unfold writeVarInt. simpl app.
  rewrite <- app_assoc, (varint_roundtrip fmt host) by lia.
  rewrite Nat2Z.id. now apply ArrayProp_readElements_written.
Qed.

Lemma OptionalProp_binary_reads_onto
    (storage old : option S) (rest : Reader fmt) :
  valid_optional valid storage ->
  readFromMlirBytecode (OptionalProp_binary elem)
    (writeToMlirBytecode (OptionalProp_binary elem) storage [] ++ rest)%list
    old
  = (success, storage, rest).
Proof.
  intros ok. destruct storage as [present|]; simpl;
    unfold OptionalProp_readFromMlirBytecode, writeOwnedBool; simpl app.
  - rewrite (appends present), <- app_assoc, (bool_roundtrip fmt host).
    simpl. now rewrite (back present rest ok).
  - now rewrite (bool_roundtrip fmt host).
Qed.
End Wrapped.

End BinaryFacts.

Section BinaryReadFailure.
Variable fmt : BytecodeFormat.
Context {S : Type} (elem : BinaryCode fmt S).

(** The loop only ever appends. *)
Lemma ArrayProp_readElements_extends
    (remaining : nat) (reader : Reader fmt) (old : list S) :
  exists added : list S,
    read_stored (ArrayProp_readElements fmt elem remaining reader old)
    = (old ++ added)%list
    /\ (List.length added <= remaining)%nat.
Proof.
  revert reader old.
  induction remaining as [|remaining IH]; intros reader old; simpl.
  - exists []. now rewrite app_nil_r.
  - destruct (readFromMlirBytecode elem reader (freshSlot elem))
      as [[elemRead elemVal] reader'].
    destruct (failed elemRead).
    + exists []. split; [now rewrite app_nil_r | simpl; lia].
    + destruct (IH reader' (old ++ [elemVal])%list) as (added & -> & short).
      exists (elemVal :: added). rewrite <- app_assoc.
      split; [reflexivity | simpl; lia].
Qed.

(** Elements read before a failing one stay in the storage. *)
Lemma ArrayProp_readElements_truncated
    (valid : S -> Prop) (back : reads_back elem valid)
    (storage : list S) (more : nat) (tail : Reader fmt) (old : list S) :
  Forall valid storage ->
  failed (read_result (readFromMlirBytecode elem tail (freshSlot elem)))
  = true ->
  let out :=
    ArrayProp_readElements fmt elem (List.length storage + Datatypes.S more)
      (concat (map (fun elemVal => writeToMlirBytecode elem elemVal [])
                 storage) ++ tail)%list old in
  read_result out = failure /\ read_stored out = (old ++ storage)%list.
Proof.
  intros ok bad. cbv zeta. revert old.
  induction ok as [|v storage v_ok _ IH]; intros old.
  - simpl.
    destruct (readFromMlirBytecode elem tail (freshSlot elem))
      as [[elemRead elemVal] reader'].
    unfold read_result in bad. simpl in bad. rewrite bad.
    split; [reflexivity | unfold read_stored; simpl; now rewrite app_nil_r].
  - cbn [List.length Nat.add map concat ArrayProp_readElements].
    rewrite <- app_assoc, (back v _ v_ok). cbn [failed].
    destruct (IH (old ++ [v])%list) as (fails & kept).
    split; [exact fails | now rewrite kept, <- app_assoc].
Qed.
End BinaryReadFailure.

(** X12.  Binary round trip of the array.  Over host primitives that read
    back what they write, and an element that writes by appending and is read
    back into a fresh variable for every valid value: the binary form of a
    sequence of valid values, fewer than [2 ^ 64] of them, is read back with
    success, the sequence is appended to whatever the destination held, and
    the reader is left at what follows.  The array then writes by appending
    and is read back into a fresh array itself, so the property carries over
    to arrays of arrays. *)
Theorem ArrayProp_bytecode_roundtrip
    (fmt : BytecodeFormat) (host : BytecodeFormat_correct fmt)
    {S : Type} (elem : BinaryCode fmt S) (valid : S -> Prop)
    (appends : writes_by_appending elem)
    (back : reads_back elem valid) :
  (forall (storage old : list S) (rest : Reader fmt),
     valid_array valid storage ->
     readFromMlirBytecode (ArrayProp_binary elem)
       (writeToMlirBytecode (ArrayProp_binary elem) storage [] ++ rest)%list
       old
     = (success, (old ++ storage)%list, rest))
  /\ writes_by_appending (ArrayProp_binary elem)
  /\ reads_back (ArrayProp_binary elem) (valid_array valid).
Proof.
  split; [|split].
  - intros storage old rest ok.
    now apply (ArrayProp_binary_reads_onto fmt host elem valid).
  - now apply ArrayProp_binary_appends.
  - intros storage rest ok.
    now apply (ArrayProp_binary_reads_onto fmt host elem valid appends back
                 storage [] rest).
Qed.

(** The sequence [present 3, absent, present -1] of optional 32-bit
    integers on the token format: the count, then a flag and a value, a
    flag, a flag and a value; read back onto an empty array. *)
Lemma ArrayProp_bytecode_roundtrip_witness :
  let element := OptionalProp_binary (IntProp_binary tokenFormat int32_t 0) in
  let storage := [Some 3%Z; None; Some (-1)%Z] in
  writeToMlirBytecode (ArrayProp_binary element) storage []
  = [TInt 3; TBool true; TInt 3; TBool false; TBool true;
     TInt 18446744073709551615]
  /\ readFromMlirBytecode (ArrayProp_binary element)
       (writeToMlirBytecode (ArrayProp_binary element) storage []
          ++ [TBool true])%list []
     = (success, storage, [TBool true]).
Proof.
  cbv zeta. split; [reflexivity|].
  apply (ArrayProp_bytecode_roundtrip tokenFormat tokenFormat_correct
           (OptionalProp_binary (IntProp_binary tokenFormat int32_t 0))
           (valid_optional (representable int32_t))).
  - apply OptionalProp_binary_appends. apply IntProp_binary_appends.
  - intros v rest ok.
    apply (OptionalProp_binary_reads_onto tokenFormat tokenFormat_correct
             (IntProp_binary tokenFormat int32_t 0) (representable int32_t)).
    + apply IntProp_binary_appends.
    + apply IntProp_binary_reads_back; [exact tokenFormat_correct|].
      simpl. lia.
    + exact ok.
  - split; [simpl; lia|].
    repeat constructor; unfold representable; simpl; lia.
Defined.

(** X13.  Binary round trip of the optional.  Over the same host and the
    same kind of wrapped property: the binary form of absent, or of a valid
    present value, is read back with success as that same optional, replacing
    whatever the destination held, with the reader left at what follows; and
    the optional again writes by appending and is read back into a fresh
    variable. *)
Theorem OptionalProp_bytecode_roundtrip
    (fmt : BytecodeFormat) (host : BytecodeFormat_correct fmt)
    {S : Type} (p : BinaryCode fmt S) (valid : S -> Prop)
    (appends : writes_by_appending p)
    (back : reads_back p valid) :
  (forall (storage old : option S) (rest : Reader fmt),
     valid_optional valid storage ->
     readFromMlirBytecode (OptionalProp_binary p)
       (writeToMlirBytecode (OptionalProp_binary p) storage [] ++ rest)%list
       old
     = (success, storage, rest))
  /\ writes_by_appending (OptionalProp_binary p)
  /\ reads_back (OptionalProp_binary p) (valid_optional valid).
Proof.
  split; [|split].
  - intros storage old rest ok.
    now apply (OptionalProp_binary_reads_onto fmt host p valid).
  - now apply OptionalProp_binary_appends.
  - intros storage rest ok.
    now apply (OptionalProp_binary_reads_onto fmt host p valid appends back
                 storage None rest).
Qed.

(** An optional string on the token format, absent and present. *)
Lemma OptionalProp_bytecode_roundtrip_witness :
  let optional := OptionalProp_binary (StringProp_binary tokenFormat) in
  readFromMlirBytecode optional
    (writeToMlirBytecode optional None [] ++ [TInt 7])%list (Some "old")
  = (success, None, [TInt 7])
  /\ readFromMlirBytecode optional
       (writeToMlirBytecode optional (Some "ab") [] ++ [TInt 7])%list None
     = (success, Some "ab", [TInt 7])
  /\ writeToMlirBytecode optional (Some "ab") []
     = [TBool true; TInt 2; TChar "a"; TChar "b"].
Proof.
  cbv zeta.
  destruct (OptionalProp_bytecode_roundtrip tokenFormat tokenFormat_correct
              (StringProp_binary tokenFormat) (fun _ => True)
              (StringProp_binary_appends tokenFormat)
              (StringProp_binary_reads_back tokenFormat tokenFormat_correct))
    as (onto & _).
  split; [|split; [|reflexivity]].
  - apply (onto None (Some "old") [TInt 7]). exact Logic.I.
  - apply (onto (Some "ab") None [TInt 7]). exact Logic.I.
Defined.

(** X14.  The optional reads its binary form all or nothing: whatever the
    stream and whatever [p]'s reader does to the variable it is given, a
    failed read leaves the destination as it was. *)
Theorem OptionalProp_bytecode_read_all_or_nothing
    (fmt : BytecodeFormat) {S : Type} (p : BinaryCode fmt S)
    (reader : Reader fmt) (storage : option S) :
  let out := readFromMlirBytecode (OptionalProp_binary p) reader storage in
  read_result out = failure -> read_stored out = storage.
Proof.
  cbv zeta. simpl. unfold OptionalProp_readFromMlirBytecode.
  destruct (decodeBool fmt reader) as [[isPresent reader']|];
    [|reflexivity].
  destruct isPresent; simpl; [|discriminate].
  destruct (readFromMlirBytecode p reader' (freshSlot p))
    as [[presentResult presentVal] reader''].
  destruct (failed presentResult); [reflexivity | discriminate].
Qed.

(** A stream that announces a present integer and ends: the read fails and
    the destination keeps its value. *)
Lemma OptionalProp_bytecode_read_all_or_nothing_witness :
  read_stored
    (readFromMlirBytecode
       (OptionalProp_binary (IntProp_binary tokenFormat int32_t 0))
       [TBool true] (Some 5%Z))
  = Some 5%Z.
Proof.
  apply (OptionalProp_bytecode_read_all_or_nothing tokenFormat
           (IntProp_binary tokenFormat int32_t 0) [TBool true] (Some 5%Z)).
  reflexivity.
Defined.

(** X15.  The array reads its binary form by appending and keeps what it
    appended when it fails.  Whatever the stream, the destination afterwards
    is what it held before followed by at most the announced number of
    elements, never less than before; and when the stream announces more
    elements than it holds, so that the element reader fails after the valid
    elements that are there, the read fails with exactly those elements
    appended (the reservation for the announced count being served). *)
Theorem ArrayProp_bytecode_read_keeps_prefix
    (fmt : BytecodeFormat) (host : BytecodeFormat_correct fmt)
    {S : Type} (elem : BinaryCode fmt S) (valid : S -> Prop)
    (back : reads_back elem valid) :
  (forall (reader : Reader fmt) (old : list S),
     exists added : list S,
       read_stored (readFromMlirBytecode (ArrayProp_binary elem) reader old)
       = (old ++ added)%list)
  /\ (forall (count : Z) (storage : list S) (tail : Reader fmt)
             (old : list S),
        Forall valid storage ->
        (Z.of_nat (List.length storage) < count < 2 ^ 64)%Z ->
        failed (read_result (readFromMlirBytecode elem tail (freshSlot elem)))
        = true ->
        let out :=
          readFromMlirBytecode (ArrayProp_binary elem)
            (encodeVarInt fmt count
               ++ concat (map (fun elemVal =>
                                 writeToMlirBytecode elem elemVal [])
                            storage)
               ++ tail)%list old in
        read_result out = failure
        /\ read_stored out = (old ++ storage)%list).
Proof.
  split.
  - intros reader old. simpl. unfold ArrayProp_readFromMlirBytecode.
    destruct (decodeVarInt fmt reader) as [[length reader']|].
    + destruct (ArrayProp_readElements_extends fmt elem (Z.to_nat length)
                  reader' old) as (added & kept & _).
      now exists added.
    + exists []. unfold read_stored. simpl. now rewrite app_nil_r.
  - intros count storage tail old ok bounds bad. cbv zeta. simpl.
    unfold ArrayProp_readFromMlirBytecode.
    rewrite (varint_roundtrip fmt host) by lia.
    replace (Z.to_nat count)
      with (List.length storage
            + Datatypes.S (Z.to_nat count - List.length storage - 1))%nat
      by lia.
    now apply (ArrayProp_readElements_truncated fmt elem valid back).
Qed.

(** Three flags announced, two present: the read fails with the two flags
    appended to the one that was there. *)
Lemma ArrayProp_bytecode_read_keeps_prefix_witness :
  let out :=
    readFromMlirBytecode (ArrayProp_binary (UnitProp_binary tokenFormat))
      [TInt 3; TBool true; TBool false] [false] in
  read_result out = failure /\ read_stored out = [false; true; false].
Proof.
  cbv zeta.
  destruct (ArrayProp_bytecode_read_keeps_prefix tokenFormat
              tokenFormat_correct (UnitProp_binary tokenFormat)
              (fun _ => True)
              (UnitProp_binary_reads_back tokenFormat tokenFormat_correct))
    as (_ & truncated).
  apply (truncated 3%Z [true; false] [] [false]).
  - repeat constructor.
  - simpl. lia.
  - reflexivity.
Defined.

Section ArrayDiagnostics.
Context {S I : Type} (elem : PropertyCode S I).

Lemma ArrayProp_convertElements_emitted
    (elems : list Attribute) (storage : list S) (diags : list string) :
  emitted (ArrayProp_convertElements elem elems storage diags)
  = (diags
     ++ concat (map (fun elemAttr =>
                       emitted (convertFromAttribute elem elemAttr
                                  (freshStorage elem)))
                  (visited elem elems)))%list.
Proof.
  revert storage diags.
  induction elems as [|elemAttr rest IH]; intros storage diags; simpl.
  - now rewrite app_nil_r.
  - destruct (failed (result (convertFromAttribute elem elemAttr
                                (freshStorage elem)))); simpl.
    + now rewrite app_nil_r.
    + rewrite IH, <- app_assoc. reflexivity.
Qed.
End ArrayDiagnostics.

(** X16.  Diagnostics of the array's attribute conversion.  For an
    attribute that is not an array the conversion fails, leaves the
    destination alone and emits the one message ["expected array attribute"].
    For an array attribute it emits nothing of its own: the messages are
    those of the elements it visited, in order, up to and including the
    first element that failed; so when an element fails without a message,
    the whole conversion fails without a message. *)
Theorem ArrayProp_convertFromAttribute_diagnostics
    {S I : Type} (elem : PropertyCode S I) (storage : list S) :
  (forall attr : Attribute,
     (forall elems, attr <> ArrayAttr elems) ->
     ArrayProp_convertFromAttribute elem attr storage
     = mkOutcome failure storage ["expected array attribute"])
  /\ (forall elems : list Attribute,
        emitted (ArrayProp_convertFromAttribute elem (ArrayAttr elems) storage)
        = concat (map (fun elemAttr =>
                         emitted (convertFromAttribute elem elemAttr
                                    (freshStorage elem)))
                    (visited elem elems))).
Proof.
  split.
  - intros attr not_array. destruct attr as [| | | |elems]; try reflexivity.
    now contradiction (not_array elems).
  - intros elems. unfold ArrayProp_convertFromAttribute.
    now rewrite ArrayProp_convertElements_emitted.
Qed.

(** A flag list read from a string, and from an array whose second element
    is a string: the first has the array's message, the second fails with no
    message at all. *)
Lemma ArrayProp_convertFromAttribute_diagnostics_witness :
  ArrayProp_convertFromAttribute UnitProp (StringAttr "x") [true]
  = mkOutcome failure [true] ["expected array attribute"]
  /\ ArrayProp_convertFromAttribute UnitProp
       (ArrayAttr [UnitAttr; StringAttr "x"; UnitAttr]) []
     = mkOutcome failure [true] [].
Proof.
  destruct (ArrayProp_convertFromAttribute_diagnostics UnitProp [true])
    as (not_array & _).
  split.
  - apply not_array. intros elems. discriminate.
  - reflexivity.
Defined.

(* ================================================================== *)
(** ** Properties of the optional's surface syntax *)
(* ================================================================== *)

Section SyntaxFacts.

Lemma append_cancel_l (a b c : string) : a ++ b = a ++ c -> b = c.
Proof.
  induction a as [|ch a IH]; simpl; intros H; [exact H|].
  injection H as H. now apply IH.
Qed.

Lemma append_char_cancel_r (ch : ascii) (a b : string) :
  a ++ String ch "" = b ++ String ch "" -> a = b.
Proof.
  revert b. induction a as [|x a IH]; intros [|y b] H; simpl in H.
  - reflexivity.
  - injection H as _ H. now destruct b.
  - injection H as _ H. now destruct a.
  - injection H as -> H. f_equal. now apply IH.
Qed.

End SyntaxFacts.

(** X17.  The optional's four parsers are all or nothing, and the mandatory
    and optional forms of a strategy differ only in reporting that nothing
    was there.  Whatever the host parser and the wrapped parsers do, a
    parser that does not return success leaves the destination as it was.
    The delegated parser and the delegated optional parser leave the same
    storage and the same parser position, and return the same result except
    that the first fails where the second returns [std::nullopt]; the general
    pair agree in the same way on storage and result. *)
Theorem OptionalProp_parsers_all_or_nothing
    (host : Syntax.OpAsmParser) {S : Type} (p_freshStorage : S)
    (p_parser :
       Syntax.position host -> S -> LogicalResult * S * Syntax.position host)
    (p_optionalParser :
       Syntax.position host -> S
       -> option LogicalResult * S * Syntax.position host)
    (parser : Syntax.position host) (storage : option S) :
  let delegated :=
    Syntax.delegatedParser host p_freshStorage p_optionalParser parser storage in
  let delegatedOptional :=
    Syntax.delegatedOptionalParser host p_freshStorage p_optionalParser
      parser storage in
  let general :=
    Syntax.generalParser host p_freshStorage p_parser parser storage in
  let generalOptional :=
    Syntax.generalOptionalParser host p_freshStorage p_parser parser storage in
  (fst (fst delegated) = failure -> snd (fst delegated) = storage)
  /\ (fst (fst delegatedOptional) <> Some success ->
        snd (fst delegatedOptional) = storage)
  /\ (fst (fst general) = failure -> snd (fst general) = storage)
  /\ (fst (fst generalOptional) <> Some success ->
        snd (fst generalOptional) = storage)
  /\ (fst (fst delegated) = Syntax.mandatory (fst (fst delegatedOptional))
      /\ snd (fst delegated) = snd (fst delegatedOptional)
      /\ snd delegated = snd delegatedOptional)
  /\ (fst (fst general) = Syntax.mandatory (fst (fst generalOptional))
      /\ snd (fst general) = snd (fst generalOptional)).
Proof.
  cbv zeta.
  unfold Syntax.delegatedParser, Syntax.delegatedOptionalParser,
    Syntax.generalParser, Syntax.generalOptionalParser,
    Syntax.delegatedParserBody, Syntax.generalParserBody.
  destruct (Syntax.parseOptionalKeyword host "none" parser) as [[|] parser1];
    destruct (p_optionalParser parser1 p_freshStorage)
      as [[[[|]|] presentVal] parser2];
    destruct (Syntax.parseOptionalKeywordAmong host ["none"; "some"] parser)
      as [[keyword|] parser3];
    try destruct (keyword =? "none")%string;
    try destruct (Syntax.parseLess host parser3) as [[|] parser4];
    try destruct (p_parser parser4 p_freshStorage)
      as [[[|] presentVal'] parser5];
    try destruct (Syntax.parseGreater host parser5) as [[|] parser6];
    simpl; repeat split; intros H; try reflexivity; try discriminate H;
    now contradiction H.
Qed.

(** A host that sees only the keyword [some] next and then no [<]: both
    general parsers stop at the missing [<] and keep [Some true]; and a host
    with nothing to offer, where the delegated forms report failure and
    [std::nullopt]. *)
Lemma OptionalProp_parsers_all_or_nothing_witness :
  let host :=
    Syntax.mkOpAsmParser nat
      (fun _ parser => (failure, parser))
      (fun _ parser => (Some "some", Datatypes.S parser))
      (fun parser => (failure, parser))
      (fun parser => (failure, parser))
      (fun _ parser => parser) in
  let p_parser := fun (parser : nat) (storage : bool) =>
                    (success, storage, parser) in
  let p_optionalParser := fun (parser : nat) (storage : bool) =>
                            (@None LogicalResult, storage, parser) in
  snd (fst (Syntax.generalParser host false p_parser 0%nat (Some true)))
  = Some true
  /\ snd (fst (Syntax.delegatedOptionalParser host false p_optionalParser
                 0%nat (Some true)))
     = Some true
  /\ fst (fst (Syntax.delegatedParser host false p_optionalParser
                 0%nat (Some true)))
     = failure.
Proof.
  cbv zeta.
  match goal with
  | |- snd (fst (Syntax.generalParser ?h _ ?pp _ _)) = _
       /\ snd (fst (Syntax.delegatedOptionalParser _ _ ?po _ _)) = _ /\ _ =>
      destruct (OptionalProp_parsers_all_or_nothing h false pp po 0%nat
                  (Some true))
        as (_ & delegatedOptional & general & _ & (agree & _) & _)
  end.
  split; [|split].
  - apply general. reflexivity.
  - apply delegatedOptional. discriminate.
  - rewrite agree. reflexivity.
Defined.

(** X18.  What the optional's printers tell apart.  The general printer
    writes [none] or [some<...>] around [p]'s text: it never prints a present
    value like the absent one, and prints different optionals differently
    whenever [p] prints different values differently.  The delegated printer
    writes a present value exactly as [p] does, so it tells absent from
    present only for values that [p] does not print as [none]. *)
Theorem OptionalProp_printers_distinguish
    {S : Type} (p_printer : S -> string) :
  (forall present : S,
     Syntax.generalPrinter p_printer (Some present)
     <> Syntax.generalPrinter p_printer None)
  /\ ((forall v w : S, p_printer v = p_printer w -> v = w) ->
      forall a b : option S,
        Syntax.generalPrinter p_printer a = Syntax.generalPrinter p_printer b ->
        a = b)
  /\ (forall present : S,
        Syntax.delegatedPrinter p_printer (Some present) = p_printer present)
  /\ (forall present : S,
        Syntax.delegatedPrinter p_printer (Some present)
        = Syntax.delegatedPrinter p_printer None
        <-> p_printer present = "none").
Proof.
  split; [|split; [|split]].
  - intros present. discriminate.
  - intros injective [v|] [w|] same; simpl in same;
      try reflexivity; try discriminate same.
    f_equal. apply injective.
    apply (append_cancel_l "some<") in same.
    now apply (append_char_cancel_r ">").
  - reflexivity.
  - intros present. reflexivity.
Qed.

(** Optional flags in the general syntax, which is the one they get: the
    three values print as [none], [some<unit>] and [some<unit_absent>]. *)
Lemma OptionalProp_printers_distinguish_witness :
  (forall a b : option bool,
     Syntax.generalPrinter Syntax.UnitProp_printer a
     = Syntax.generalPrinter Syntax.UnitProp_printer b ->
     a = b)
  /\ Syntax.generalPrinter Syntax.UnitProp_printer (Some false)
     = "some<unit_absent>".
Proof.
  split; [|reflexivity].
  apply (OptionalProp_printers_distinguish Syntax.UnitProp_printer).
  intros [] []; simpl; intros H; try reflexivity; discriminate H.
Defined.
